(** * Patient email plugin: the send policy engine, verified

    A shallow embedding of [models.py], [model_extensions.py],
    [forms.py] (the template name cleaner) and [views.py] (the quick
    action endpoint) of the patient email plugin, and the properties its
    specification states about them.

    Python values are modelled as follows.
    - [str] is [string]; an attribute that may be [None] is an
      [option string]; Python truthiness of such a value is [truthy].
    - Model instances and dictionaries are objects on a heap, addressed
      by [loc]: a method receives [self] as an address, a caller's
      context dictionary is an address into [dicts].
    - The database table [patient_email_profiles] is a finite map keyed
      by the patient's primary key, which is how the one-to-one field's
      unique index constrains it.
    - The collaborators the plugin calls ([render_to_string],
      [strip_tags], [send_mail], [print], the storage layer behind
      [save], [get_or_create] and the read of [self.patient] in the
      handler of [send_email]) are the fields of an environment [env];
      the ones doing input or output may raise.
    - Every collaborator call is recorded in a trace, and advances the
      clock that [timezone.now()] reads. *)

From Stdlib Require Import Ascii String.
From stdpp Require Import base option list strings gmap pretty.

Local Open Scope string_scope.
Local Open Scope Z_scope.
Local Open Scope list_scope.

(** ** Python values *)

(** [bool(x)] for an optional string: [None] and [''] are falsy. *)
Definition truthy (x : option string) : bool :=
  match x with
  | None => false
  | Some s => negb (String.eqb s "")
  end.

(** [a or b] on optional strings. *)
Definition py_or (a b : option string) : option string :=
  if truthy a then a else b.

(** [x or ""] where the result is used as a [str]. *)
Definition or_empty (x : option string) : string :=
  if truthy x then default "" x else "".

(** An exception instance: its class name and [str(e)]. Only instances of
    [Exception] are modelled. *)
Record exn := Exn { exn_class : string; exn_msg : string }.

Inductive result (A : Type) :=
| Ok (a : A)
| Raise (e : exn).
Arguments Ok {A} a.
Arguments Raise {A} e.

(** ** Data model *)

Definition loc := positive.

(** The host application's [Patient]: the two attributes the plugin reads. *)
Record Patient := mkPatient {
  pk : Z;
  patient_organization : Z
}.

(** [models.PatientEmail]. [organization] is inherited from [RitikoModel]. *)
Record PatientEmail := mkPatientEmail {
  patient : Patient;
  organization : Z;
  email : option string;
  secondary_email : option string;
  email_verified : bool;
  email_notifications_enabled : bool;
  preferred_email : string;
  email_bounced : bool;
  last_email_sent : option Z
}.

(** [models.EmailTemplate]. *)
Record EmailTemplate := mkEmailTemplate {
  name : string;
  subject : string;
  html_content : string;
  text_content : string;
  is_active : bool;
  description : string
}.

(** Values stored in a template context. *)
Inductive pyval :=
| VNone
| VStr (s : string)
| VPatient (p : Patient)
| VProfile (l : loc).

Definition of_opt_str (x : option string) : pyval :=
  match x with
  | None => VNone
  | Some s => VStr s
  end.

(** ** [PatientEmail.get_preferred_email] *)

Definition get_preferred_email (self : PatientEmail) : option string :=
  if String.eqb (preferred_email self) "secondary" && truthy (secondary_email self)
  then secondary_email self
  else py_or (email self) (secondary_email self).

(** ** The world the plugin runs in *)

(** The arguments of one [django.core.mail.send_mail] call. *)
Record mail := mkMail {
  mail_subject : string;
  mail_message : string;
  mail_from_email : option string;
  mail_recipient_list : list string;
  mail_html_message : option string;
  mail_fail_silently : bool
}.

(** Calls to the collaborators, in the order they were made, each with
    what it returned or raised. *)
Inductive event :=
| EvRender (template_name : string) (context : gmap string pyval) (outcome : result string)
| EvSendMail (m : mail) (outcome : result Z)
| EvSave (patient_pk : Z) (update_fields : list string) (outcome : result unit)
| EvGetOrCreate (patient_pk : Z) (outcome : result bool)
| EvPrint (line : string).

Record world := mkWorld {
  objs : gmap loc PatientEmail;          (* model instances in memory *)
  dicts : gmap loc (gmap string pyval);  (* dictionaries in memory *)
  db : gmap Z PatientEmail;              (* patient_email_profiles, by patient pk *)
  patients : gmap Z Patient;             (* the host's patient table *)
  trace : list event;
  now : Z                                (* the clock, in ticks *)
}.

(** The collaborators. A call that does input or output may raise; its
    outcome may depend on the world it is made in. *)
Record env := mkEnv {
  render_to_string : string → gmap string pyval → world → result string;
  strip_tags : string → string;
  send_mail : mail → world → result Z;
  save_fault : PatientEmail → world → option exn;
  fetch_fault : Patient → world → option exn;
  patient_fault : loc → world → option exn;
  print_fault : string → world → option exn;
  latency : event → N
}.

Definition set_objs (f : gmap loc PatientEmail → gmap loc PatientEmail) (w : world) : world :=
  mkWorld (f (objs w)) (dicts w) (db w) (patients w) (trace w) (now w).

Definition set_dicts (f : gmap loc (gmap string pyval) → gmap loc (gmap string pyval))
    (w : world) : world :=
  mkWorld (objs w) (f (dicts w)) (db w) (patients w) (trace w) (now w).

Definition set_db (f : gmap Z PatientEmail → gmap Z PatientEmail) (w : world) : world :=
  mkWorld (objs w) (dicts w) (f (db w)) (patients w) (trace w) (now w).

Definition record_event (E : env) (ev : event) (w : world) : world :=
  mkWorld (objs w) (dicts w) (db w) (patients w) (trace w ++ [ev])
          (now w + Z.of_N (latency E ev)).

(** ** Computations: state, and exceptions that keep the state *)

Definition M (A : Type) : Type := world → result A * world.

Definition ret {A} (a : A) : M A := λ w, (Ok a, w).

Definition raise {A} (e : exn) : M A := λ w, (Raise e, w).

Definition bind {A B} (m : M A) (k : A → M B) : M B :=
  λ w, match m w with
       | (Ok a, w') => k a w'
       | (Raise e, w') => (Raise e, w')
       end.

(** [try: body except Exception as e: handler(e)]. The effects the body
    had before it raised stay. *)
Definition try_except {A} (body : M A) (handler : exn → M A) : M A :=
  λ w, match body w with
       | (Ok a, w') => (Ok a, w')
       | (Raise e, w') => handler e w'
       end.

(** [x ← m; k] and [m;; k] are stdpp's notations for [bind]. *)
#[global] Instance M_ret : MRet M := @ret.
#[global] Instance M_bind : MBind M := λ A B k m, bind m k.

(** *** Primitive operations *)

Definition get_world : M world := λ w, (Ok w, w).

Definition modify (f : world → world) : M unit := λ w, (Ok tt, f w).

Definition lift_result {A} (r : result A) : M A := λ w, (r, w).

Definition emit (E : env) (ev : event) : M unit := modify (record_event E ev).

(** Reading the instance behind [self]. Python has no address without an
    object; the model raises at one, and the statements below are about
    addresses that hold an instance. *)
Definition read_obj (self : loc) : M PatientEmail :=
  w ← get_world;
  match objs w !! self with
  | Some p => ret p
  | None => raise (Exn "ReferenceError" "no such object")
  end.

Definition alloc_obj (p : PatientEmail) : M loc :=
  w ← get_world;
  let l := fresh (dom (objs w)) in
  modify (set_objs (insert l p));; ret l.

Definition alloc_dict (d : gmap string pyval) : M loc :=
  w ← get_world;
  let l := fresh (dom (dicts w)) in
  modify (set_dicts (insert l d));; ret l.

Definition read_dict (l : loc) : M (gmap string pyval) :=
  w ← get_world;
  match dicts w !! l with
  | Some d => ret d
  | None => raise (Exn "ReferenceError" "no such object")
  end.

(** [d[key] = value]: the dictionary at [l] is updated in place. *)
Definition dict_setitem (l : loc) (key : string) (value : pyval) : M unit :=
  d ← read_dict l;
  modify (set_dicts (insert l (<[key := value]> d))).

Definition set_last_email_sent (t : option Z) (p : PatientEmail) : PatientEmail :=
  mkPatientEmail (patient p) (organization p) (email p) (secondary_email p)
    (email_verified p) (email_notifications_enabled p) (preferred_email p)
    (email_bounced p) t.

(** [self.last_email_sent = t]. *)
Definition setattr_last_email_sent (self : loc) (t : Z) : M unit :=
  p ← read_obj self;
  modify (set_objs (insert self (set_last_email_sent (Some t) p))).

(** [timezone.now()]. *)
Definition timezone_now : M Z := w ← get_world; ret (now w).

(** [print(line)]: it writes to the standard output, which may raise; a
    line that was written is recorded. *)
Definition print (E : env) (line : string) : M unit :=
  w ← get_world;
  match print_fault E line w with
  | Some e => raise e
  | None => emit E (EvPrint line)
  end.

(** [self.patient] as the handler of [send_email] reads it: the forward
    side of the one-to-one field. An instance that came from a query
    holds the key of its patient and loads the patient on the first read
    of the attribute, which raises when the storage layer does; an
    instance whose patient is loaded answers at once. Which of the two it
    is, and whether the storage layer answers, is the environment's. The
    read is not one of the calls the trace keeps. *)
Definition read_patient (E : env) (self : loc) : M Patient :=
  p ← read_obj self;
  w ← get_world;
  match patient_fault E self w with
  | Some e => raise e
  | None => ret (patient p)
  end.

(** A collaborator call is recorded whether it returns or raises. *)
Definition call_render_to_string (E : env) (template_name : string) (context : loc) : M string :=
  d ← read_dict context;
  w ← get_world;
  let outcome := render_to_string E template_name d w in
  emit E (EvRender template_name d outcome);;
  lift_result outcome.

Definition call_send_mail (E : env) (m : mail) : M Z :=
  w ← get_world;
  let outcome := send_mail E m w in
  emit E (EvSendMail m outcome);;
  lift_result outcome.

(** *** The storage layer *)

(** The column [field] of [row] takes the value it has in [src]. *)
Definition copy_field (src : PatientEmail) (field : string) (row : PatientEmail) : PatientEmail :=
  if String.eqb field "organization" then
    mkPatientEmail (patient row) (organization src) (email row) (secondary_email row)
      (email_verified row) (email_notifications_enabled row) (preferred_email row)
      (email_bounced row) (last_email_sent row)
  else if String.eqb field "email" then
    mkPatientEmail (patient row) (organization row) (email src) (secondary_email row)
      (email_verified row) (email_notifications_enabled row) (preferred_email row)
      (email_bounced row) (last_email_sent row)
  else if String.eqb field "secondary_email" then
    mkPatientEmail (patient row) (organization row) (email row) (secondary_email src)
      (email_verified row) (email_notifications_enabled row) (preferred_email row)
      (email_bounced row) (last_email_sent row)
  else if String.eqb field "email_verified" then
    mkPatientEmail (patient row) (organization row) (email row) (secondary_email row)
      (email_verified src) (email_notifications_enabled row) (preferred_email row)
      (email_bounced row) (last_email_sent row)
  else if String.eqb field "email_notifications_enabled" then
    mkPatientEmail (patient row) (organization row) (email row) (secondary_email row)
      (email_verified row) (email_notifications_enabled src) (preferred_email row)
      (email_bounced row) (last_email_sent row)
  else if String.eqb field "preferred_email" then
    mkPatientEmail (patient row) (organization row) (email row) (secondary_email row)
      (email_verified row) (email_notifications_enabled row) (preferred_email src)
      (email_bounced row) (last_email_sent row)
  else if String.eqb field "email_bounced" then
    mkPatientEmail (patient row) (organization row) (email row) (secondary_email row)
      (email_verified row) (email_notifications_enabled row) (preferred_email row)
      (email_bounced src) (last_email_sent row)
  else if String.eqb field "last_email_sent" then
    set_last_email_sent (last_email_sent src) row
  else row.

(** [self.save(update_fields=fields)]: an UPDATE of the named columns of
    the instance's row. It raises when the storage layer fails, and when
    no row was affected. *)
Definition save (E : env) (self : loc) (update_fields : list string) : M unit :=
  p ← read_obj self;
  w ← get_world;
  match save_fault E p w with
  | Some e => emit E (EvSave (pk (patient p)) update_fields (Raise e));; raise e
  | None =>
      match db w !! pk (patient p) with
      | None =>
          let e := Exn "DatabaseError" "Save with update_fields did not affect any rows." in
          emit E (EvSave (pk (patient p)) update_fields (Raise e));; raise e
      | Some row =>
          modify (set_db (insert (pk (patient p)) (foldr (copy_field p) row update_fields)));;
          emit E (EvSave (pk (patient p)) update_fields (Ok tt))
      end
  end.

(** A new row with the field defaults of [PatientEmail]. *)
Definition new_profile (p : Patient) (org : Z) : PatientEmail :=
  mkPatientEmail p org None None false true "primary" false None.

(** [PatientEmail.objects.get_or_create(patient=p, defaults={"organization": org})]:
    the instance and whether it was created. *)
Definition get_or_create (E : env) (p : Patient) (org : Z) : M (loc * bool) :=
  w ← get_world;
  match fetch_fault E p w with
  | Some e => emit E (EvGetOrCreate (pk p) (Raise e));; raise e
  | None =>
      match db w !! pk p with
      | Some row =>
          emit E (EvGetOrCreate (pk p) (Ok false));;
          l ← alloc_obj row;
          ret (l, false)
      | None =>
          modify (set_db (insert (pk p) (new_profile p org)));;
          emit E (EvGetOrCreate (pk p) (Ok true));;
          l ← alloc_obj (new_profile p org);
          ret (l, true)
      end
  end.

(** ** [models.py]: the send policy engine *)

Module models.

(** The handler of the [try] block:
    [print(f"Failed to send email to patient {self.patient.pk}: {e}")]
    and [return False]. Both the read of [self.patient] and [print] run
    outside any [try]: what they raise reaches the caller. *)
Definition handler (E : env) (self : loc) (e : exn) : M bool :=
  patient ← read_patient E self;
  print E ("Failed to send email to patient " +:+ pretty (pk patient) +:+ ": "
           +:+ exn_msg e);;
  ret false.

(** The first part of the [try] block of [send_email]: "If template_name
    is provided, render the email content". It yields the [message] and
    the [html_message] the rest of the block goes on with. [self.patient]
    is taken here off the instance in memory: the statements about this
    step are about an instance that answers this read. *)
Definition render_content (E : env) (self : loc) (p : PatientEmail)
    (message html_message template_name : option string) (context : option loc)
    : M (option string * option string) :=
  match (if truthy template_name then context else None) with
  | Some ctx =>
      dict_setitem ctx "patient" (VPatient (patient p));;
      dict_setitem ctx "email_profile" (VProfile self);;
      html ← call_render_to_string E (default "" template_name) ctx;
      if negb (truthy message)
      then ret (Some (strip_tags E html), Some html)
      else ret (message, Some html)
  | None => ret (message, html_message)
  end.

(** The rest of the [try] block: "Send the email" and "Update last email
    sent timestamp". *)
Definition deliver (E : env) (self : loc) (subject : string)
    (message html_message from_email : option string) (email_address : string) : M bool :=
  result ← call_send_mail E
    (mkMail subject (or_empty message) from_email [email_address] html_message false);
  (if negb (result =? 0) then
     t ← timezone_now;
     setattr_last_email_sent self t;;
     save E self ["last_email_sent"]
   else ret tt);;
  ret (negb (result =? 0)).

(** The whole [try] block. *)
Definition try_block (E : env) (self : loc) (p : PatientEmail) (subject : string)
    (message html_message template_name : option string)
    (context : option loc) (from_email : option string) (email_address : string) : M bool :=
  '(message, html_message) ←
    render_content E self p message html_message template_name context;
  deliver E self subject message html_message from_email email_address.

(** [PatientEmail.send_email]. *)
Definition send_email (E : env) (self : loc) (subject : string)
    (message html_message template_name : option string)
    (context : option loc) (from_email : option string) : M bool :=
  p ← read_obj self;
  if negb (email_notifications_enabled p) then ret false
  else if email_bounced p then ret false
  else
    let email_address := get_preferred_email p in
    if negb (truthy email_address) then ret false
    else
      try_except
        (try_block E self p subject message html_message template_name context
           from_email (default "" email_address))
        (handler E self).

(** [PatientEmail.send_appointment_reminder]. *)
Definition send_appointment_reminder (E : env) (self : loc)
    (appointment_date appointment_time : pyval) : M bool :=
  context ← alloc_dict (<["appointment_date" := appointment_date]>
                        (<["appointment_time" := appointment_time]> ∅));
  send_email E self "Appointment Reminder" None None
    (Some "patient_email_plugin/emails/appointment_reminder.html")
    (Some context) None.

(** [PatientEmail.send_welcome_email]. *)
Definition send_welcome_email (E : env) (self : loc) : M bool :=
  context ← alloc_dict ∅;
  send_email E self "Welcome to our healthcare system" None None
    (Some "patient_email_plugin/emails/welcome.html")
    (Some context) None.

(** [PatientEmail.send_care_plan_update]. *)
Definition send_care_plan_update (E : env) (self : loc) (care_plan_details : pyval) : M bool :=
  context ← alloc_dict (<["care_plan_details" := care_plan_details]> ∅);
  send_email E self "Care Plan Update" None None
    (Some "patient_email_plugin/emails/care_plan_update.html")
    (Some context) None.

End models.

(** ** [model_extensions.py]: the methods added to [Patient] *)

Module model_extensions.

(** [Patient.get_email_profile]. *)
Definition get_email_profile (E : env) (self : Patient) : M loc :=
  '(email_profile, created) ← get_or_create E self (patient_organization self);
  ret email_profile.

(** [Patient.send_email]. *)
Definition send_email (E : env) (self : Patient) (subject : string)
    (message html_message template_name : option string)
    (context : option loc) (from_email : option string) : M bool :=
  email_profile ← get_email_profile E self;
  models.send_email E email_profile subject message html_message
    template_name context from_email.

(** [Patient.send_appointment_reminder]. *)
Definition send_appointment_reminder (E : env) (self : Patient)
    (appointment_date appointment_time : pyval) : M bool :=
  email_profile ← get_email_profile E self;
  models.send_appointment_reminder E email_profile appointment_date appointment_time.

(** [Patient.send_welcome_email]. *)
Definition send_welcome_email (E : env) (self : Patient) : M bool :=
  email_profile ← get_email_profile E self;
  models.send_welcome_email E email_profile.

(** [Patient.send_care_plan_update]. *)
Definition send_care_plan_update (E : env) (self : Patient) (care_plan_details : pyval) : M bool :=
  email_profile ← get_email_profile E self;
  models.send_care_plan_update E email_profile care_plan_details.

End model_extensions.

(** ** [forms.py]: the template name cleaner *)

Module forms.

(** A [string] holds the UTF-8 form of a Python [str]: a character below
    128 is one 7-bit code point, and a 7-bit [str] is a string of such
    characters. *)
Definition is_7bit (c : ascii) : bool := (N_of_ascii c <? 128)%N.

(** [str.lower()] on a 7-bit [str]: [A]-[Z] become [a]-[z], every other
    character stays. *)
Definition lower_char (c : ascii) : ascii :=
  let n := N_of_ascii c in
  if (65 <=? n)%N && (n <=? 90)%N then ascii_of_N (n + 32) else c.

Fixpoint lower (s : string) : string :=
  match s with
  | EmptyString => EmptyString
  | String c s' => String (lower_char c) (lower s')
  end.

(** [str.replace(" ", "_")]: a space is one byte of the UTF-8 form, and no
    part of any other character's. *)
Fixpoint replace_char (old new : ascii) (s : string) : string :=
  match s with
  | EmptyString => EmptyString
  | String c s' => String (if Ascii.eqb c old then new else c) (replace_char old new s')
  end.

(** [EmailTemplateForm.clean_name], on [self.cleaned_data.get("name")],
    the name as the field's own validation left it. [str_lower] is
    Python's [str.lower]: its case mapping of the characters beyond the
    7-bit ones is not part of this development, and the statements say
    what they ask of it. *)
Definition clean_name (str_lower : string → string) (cleaned_data_name : option string)
    : option string :=
  if truthy cleaned_data_name
  then Some (replace_char " " "_" (str_lower (default "" cleaned_data_name)))
  else cleaned_data_name.

End forms.

(** ** [models.py]: saving an [EmailTemplate] *)

Module email_template.

(** [EmailTemplate.save()]. The class (models.py 192-229) declares its
    fields, [Meta] and [__str__], and no [save], no [clean] and no signal
    handler: saving is the [save] it inherits, which writes the fields of
    the instance as they are under the instance's key. [name] is declared
    [unique]: a name another row holds is refused. [store_fault] is the
    storage layer, which may refuse a row for reasons of its own (a name
    over the declared [max_length], a lost connection). *)
Definition save (store_fault : EmailTemplate → option exn) (table : gmap Z EmailTemplate)
    (pk : Z) (self : EmailTemplate) : result (gmap Z EmailTemplate) :=
  match store_fault self with
  | Some e => Raise e
  | None =>
      if decide (map_Exists (λ k t, k ≠ pk ∧ name t = name self) table)
      then Raise (Exn "IntegrityError" "UNIQUE constraint failed: patient_email_templates.name")
      else Ok (<[pk := self]> table)
  end.

End email_template.

(** ** [views.py]: the quick action endpoint *)

Module views.

Record request := mkRequest {
  user_perms : list string;
  user_organization : Z;
  POST : gmap string string
}.

(** [request.user.has_perm(perm)], for a request whose user has the
    permissions loaded: [user_perms] is what the user holds. *)
Definition has_perm (r : request) (perm : string) : bool :=
  bool_decide (perm ∈ user_perms r).

Inductive json :=
| JBool (b : bool)
| JStr (s : string).

Inductive response :=
| JsonResponse (body : list (string * json)).

(** [get_object_or_404(Patient, pk=patient_id, organization=org)]. *)
Definition get_object_or_404 (patient_id org : Z) : M Patient :=
  w ← get_world;
  match patients w !! patient_id with
  | Some p =>
      if (patient_organization p =? org)%Z then ret p
      else raise (Exn "Http404" "No Patient matches the given query.")
  | None => raise (Exn "Http404" "No Patient matches the given query.")
  end.

Definition str_eq (x : option string) (s : string) : bool :=
  match x with
  | Some a => String.eqb a s
  | None => false
  end.

(** [ajax_patient_email_quick_actions]. *)
Definition ajax_patient_email_quick_actions (E : env) (r : request) (patient_id : Z)
    : M response :=
  if negb (has_perm r "patient_email_plugin.can_send_patient_emails") then
    ret (JsonResponse [("success", JBool false); ("error", JStr "Permission denied")])
  else
    patient ← get_object_or_404 patient_id (user_organization r);
    let action := POST r !! "action" in
    let success := false in
    let message := "Unknown action" in
    '(success, message) ←
      (if str_eq action "send_welcome" then
         success ← model_extensions.send_welcome_email E patient;
         ret (success, if success : bool then "Welcome email sent"
                       else "Failed to send welcome email")
       else if str_eq action "send_appointment_reminder" then
         let appointment_date := of_opt_str (POST r !! "appointment_date") in
         let appointment_time := of_opt_str (POST r !! "appointment_time") in
         success ← model_extensions.send_appointment_reminder E patient
                     appointment_date appointment_time;
         ret (success, if success : bool then "Appointment reminder sent"
                       else "Failed to send appointment reminder")
       else if str_eq action "verify_email" then
         context ← alloc_dict ∅;
         success ← model_extensions.send_email E patient
                     "Please verify your email address" None None
                     (Some "patient_email_plugin/emails/verify_email.html")
                     (Some context) None;
         ret (success, if success : bool then "Verification email sent"
                       else "Failed to send verification email")
       else ret (success, message));
    ret (JsonResponse [("success", JBool success); ("message", JStr message)]).

End views.

(** ** Vocabulary of the statements *)

(** The three checks that open [send_email] all pass. *)
Definition passes_gate (p : PatientEmail) : bool :=
  email_notifications_enabled p && negb (email_bounced p) && truthy (get_preferred_email p).

(** The exception a recorded collaborator call raised, if it raised. *)
Definition fault_of (ev : event) : option exn :=
  match ev with
  | EvRender _ _ (Raise e) | EvSendMail _ (Raise e) | EvSave _ _ (Raise e)
  | EvGetOrCreate _ (Raise e) => Some e
  | _ => None
  end.

(** The transport took the message: [send_mail] returned a count that is
    not zero. *)
Definition accepted (ev : event) : Prop :=
  ∃ m n, ev = EvSendMail m (Ok n) ∧ n ≠ 0.

(** The line that reports exception [e] for the patient of [p]. *)
Definition failure_line (p : PatientEmail) (e : exn) : string :=
  "Failed to send email to patient " +:+ pretty (pk (patient p)) +:+ ": " +:+ exn_msg e.

(** An outcome in which every fault was absorbed: the call returned a
    boolean, and if one of the collaborator calls it made raised, the
    boolean is [False] and the last thing the call did was to print the
    line that names the patient, by the key, and the exception. *)
Definition absorbed (p : PatientEmail) (w : world) (out : result bool * world) : Prop :=
  ∃ b evs,
    out.1 = Ok b ∧ trace out.2 = trace w ++ evs ∧
    ∀ ev e, ev ∈ evs → fault_of ev = Some e →
      b = false ∧
      last evs = Some (EvPrint ("Failed to send email to patient "
                                +:+ pretty (pk (patient p)) +:+ ": " +:+ exn_msg e)).

(** What the handler of [send_email] itself raises in world [w] when it
    reports [e] on the instance at [self], if it raises: what the read of
    [self.patient] raises, or else what [print] raises. *)
Definition handler_fault (E : env) (self : loc) (p : PatientEmail) (e : exn) (w : world)
    : option exn :=
  match patient_fault E self w with
  | Some e' => Some e'
  | None => print_fault E (failure_line p e) w
  end.

(** An outcome in which the handler raised: the exception that reaches
    the caller is one the handler's own read of [self.patient] or its
    [print] raised. *)
Definition handler_raised (E : env) (self : loc) (p : PatientEmail)
    (out : result bool * world) : Prop :=
  ∃ e e', out.1 = Raise e' ∧ handler_fault E self p e out.2 = Some e'.

(** What the handler adds to the trace when it reports [e], with the
    outcome [r] of the call and the world [w'] it ends in: the line and
    [False], or nothing and the exception it raised itself. *)
Definition handler_events (E : env) (self : loc) (p : PatientEmail) (e : exn)
    (r : result bool) (w' : world) (evs : list event) : Prop :=
  (r = Ok false ∧ evs = [EvPrint (failure_line p e)])
  ∨ (∃ e', r = Raise e' ∧ evs = [] ∧ handler_fault E self p e w' = Some e').

(** The handler's read of [self.patient] and its [print] are answered
    wherever they are made: so it is for an instance whose patient is
    loaded and a standard output that takes the line. *)
Definition handler_answered (E : env) : Prop :=
  (∀ self w, patient_fault E self w = None) ∧ (∀ line w, print_fault E line w = None).

(** The context dictionary [d] after [send_email] added its two keys. *)
Definition augmented (self : loc) (p : PatientEmail) (d : gmap string pyval)
    : gmap string pyval :=
  <["email_profile" := VProfile self]> (<["patient" := VPatient (patient p)]> d).

Definition no_faults (evs : list event) : Prop :=
  ∀ ev, ev ∈ evs → fault_of ev = None.

Definition faults_only (e : exn) (evs : list event) : Prop :=
  ∀ ev e', ev ∈ evs → fault_of ev = Some e' → e' = e.

(** [all(pred(c) for c in s)]. *)
Fixpoint all_chars (pred : ascii → bool) (s : string) : bool :=
  match s with
  | EmptyString => true
  | String c s' => pred c && all_chars pred s'
  end.

(** [c] is neither a space nor one of the capitals [A]-[Z]. *)
Definition normal_char (c : ascii) : bool :=
  negb (Ascii.eqb c " ") && negb ((65 <=? N_of_ascii c)%N && (N_of_ascii c <=? 90)%N).

(** [str_lower] does on 7-bit strings what [str.lower()] does there. *)
Definition lowers_7bit (str_lower : string → string) : Prop :=
  ∀ s, all_chars forms.is_7bit s = true → str_lower s = forms.lower s.

(** ** Sample data *)

Module sample.

Definition ana : Patient := mkPatient 7 3.

Definition profile : PatientEmail :=
  mkPatientEmail ana 3 (Some "a@x.com") None false true "primary" false None.


Definition bounced : PatientEmail :=
  mkPatientEmail ana 3 (Some "a@x.com") None false true "primary" true None.

(** A tag stripper good enough for the samples: it drops what stands
    between [<] and [>]. *)
Fixpoint strip (in_tag : bool) (s : string) : string :=
  match s with
  | EmptyString => EmptyString
  | String c s' =>
      if Ascii.eqb c "<" then strip true s'
      else if Ascii.eqb c ">" then (if in_tag then strip false s' else String c (strip false s'))
      else if in_tag then strip true s' else String c (strip false s')
  end.

Definition quiet (ev : event) : N := 1%N.

(** Everything works. *)
Definition E : env :=
  mkEnv (λ _ _ _, Ok "<p>Hello</p>") (strip false) (λ _ _, Ok 1)
        (λ _ _, None) (λ _ _, None) (λ _ _, None) (λ _ _, None) quiet.

(** The transport works, the storage layer rejects every write. *)
Definition E_save_down : env :=
  mkEnv (λ _ _ _, Ok "<p>Hello</p>") (strip false) (λ _ _, Ok 1)
        (λ _ _, Some (Exn "OperationalError" "server closed the connection"))
        (λ _ _, None) (λ _ _, None) (λ _ _, None) quiet.

(** The transport works; the storage layer went away after the instance
    was fetched: it rejects the write, and the read of the instance's
    patient, which was not loaded. *)
Definition E_storage_gone : env :=
  mkEnv (λ _ _ _, Ok "<p>Hello</p>") (strip false) (λ _ _, Ok 1)
        (λ _ _, Some (Exn "OperationalError" "server closed the connection"))
        (λ _ _, None)
        (λ _ _, Some (Exn "OperationalError" "server closed the connection"))
        (λ _ _, None) quiet.

(** The template is missing. *)
Definition E_no_template : env :=
  mkEnv (λ t _ _, Raise (Exn "TemplateDoesNotExist" t)) (strip false) (λ _ _, Ok 1)
        (λ _ _, None) (λ _ _, None) (λ _ _, None) (λ _ _, None) quiet.

(** The storage layer rejects every query. *)
Definition E_db_down : env :=
  mkEnv (λ _ _ _, Ok "<p>Hello</p>") (strip false) (λ _ _, Ok 1)
        (λ _ _, None)
        (λ _ _, Some (Exn "OperationalError" "server closed the connection"))
        (λ _ _, None) (λ _ _, None) quiet.

(** Patient 7 with profile [p], held in memory at address 1; a
    dictionary the caller filled, at address 1 of the dictionaries. *)
Definition world_of (p : PatientEmail) : world :=
  mkWorld {[1%positive := p]}
          {[1%positive := {["patient" := VStr "mine"; "greeting" := VStr "hello"]}]}
          {[7 := p]} {[7 := ana]} [] 100.

(** Patient 7 is known to the host, and has no profile yet. *)
Definition fresh_world : world :=
  mkWorld ∅ ∅ ∅ {[7 := ana]} [] 100.

Definition staff : views.request :=
  views.mkRequest ["patient_email_plugin.can_send_patient_emails"] 3
    {["action" := "unknown_action"]}.

End sample.

(** ** [model_extensions.py]: the methods of [Patient] that only read *)

Module patient_methods.

(** [self.email_profile], the reverse side of the one-to-one field: the
    patient's row is read, never created, and a patient without one makes
    the access raise. The read is not one of the calls the trace keeps. *)
Definition email_profile (E : env) (self : Patient) : M PatientEmail :=
  w ← get_world;
  match fetch_fault E self w with
  | Some e => raise e
  | None =>
      match db w !! pk self with
      | Some row => ret row
      | None => raise (Exn "RelatedObjectDoesNotExist" "Patient has no email_profile.")
      end
  end.

(** [Patient.has_email]. *)
Definition has_email (E : env) (self : Patient) : M bool :=
  try_except
    (email_profile ← email_profile E self;
     ret (truthy (get_preferred_email email_profile)))
    (λ _, ret false).

(** [Patient.get_email]. *)
Definition get_email (E : env) (self : Patient) : M (option string) :=
  try_except
    (email_profile ← email_profile E self;
     ret (get_preferred_email email_profile))
    (λ _, ret None).

End patient_methods.

(** ** [forms.py]: the validation of the profile form *)

Module profile_form.

(** [cleaned_data] of a [PatientEmailForm]: a key is absent when its field
    did not validate, and [.get] then yields [None]. *)
Record cleaned := mkCleaned {
  cd_email : option string;
  cd_secondary_email : option string;
  cd_email_notifications_enabled : option bool;
  cd_preferred_email : option string
}.

Definition ValidationError (msg : string) : exn := Exn "ValidationError" msg.

(** [PatientEmailForm.clean]. *)
Definition clean (cleaned_data : cleaned) : result cleaned :=
  let email := cd_email cleaned_data in
  let secondary_email := cd_secondary_email cleaned_data in
  let preferred_email := cd_preferred_email cleaned_data in
  let rest :=
    if views.str_eq preferred_email "secondary" && negb (truthy secondary_email) then
      Raise (ValidationError
               "Secondary email address is required when it's set as preferred.")
    else if views.str_eq preferred_email "primary" && negb (truthy email) then
      Raise (ValidationError
               "Primary email address is required when it's set as preferred.")
    else Ok cleaned_data in
  if default false (cd_email_notifications_enabled cleaned_data) then
    if negb (truthy email) && negb (truthy secondary_email) then
      Raise (ValidationError
               "At least one email address is required when email notifications are enabled.")
    else rest
  else rest.

End profile_form.

(** ** [views.py]: the edit view's object and the send view *)

Module pages.

(** [PatientEmailEditView.get_object]. *)
Definition get_object (E : env) (r : views.request) (patient_id : Z) : M loc :=
  patient ← views.get_object_or_404 patient_id (views.user_organization r);
  '(email_profile, created) ← get_or_create E patient (views.user_organization r);
  ret email_profile.

(** A request with its method. *)
Record http_request := mkHttp {
  base : views.request;
  method : string
}.

(** What [SendEmailForm.cleaned_data] holds once the form validated. *)
Record send_data := mkSendData {
  sd_subject : string;
  sd_message : string;
  sd_html_message : option string
}.

Inductive level := Success | Error.

(** What a view answers with: a redirect to a named route, or a rendered
    template with whether it carries a bound form. *)
Inductive page :=
| Redirect (route : string) (arg : Z)
| Render (template_name : string) (patient : Patient) (bound : bool).

(** [send_patient_email]. The validation of the submitted fields is the
    form framework's: [validate] is [SendEmailForm(request.POST)], [None]
    when the form is not valid. [get_full_name] is the host's method of
    [Patient]. The flash messages the view adds are returned with the
    page. *)
Definition send_patient_email (E : env)
    (validate : gmap string string → option send_data)
    (get_full_name : Patient → string)
    (r : http_request) (patient_id : Z) : M (page * list (level * string)) :=
  patient ← views.get_object_or_404 patient_id (views.user_organization (base r));
  if negb (views.has_perm (base r) "patient_email_plugin.can_send_patient_emails") then
    ret (Redirect "patients:detail" patient_id,
         [(Error, "You don't have permission to send emails to patients.")])
  else if String.eqb (method r) "POST" then
    match validate (views.POST (base r)) with
    | Some cleaned_data =>
        success ← model_extensions.send_email E patient
                    (sd_subject cleaned_data) (Some (sd_message cleaned_data))
                    (sd_html_message cleaned_data) None None None;
        if success : bool then
          ret (Redirect "patients:detail" patient_id,
               [(Success, "Email sent successfully to " +:+ get_full_name patient)])
        else
          ret (Redirect "patients:detail" patient_id,
               [(Error,
                 "Failed to send email. Please check patient's email configuration.")])
    | None => ret (Render "patient_email_plugin/send_email.html" patient true, [])
    end
  else ret (Render "patient_email_plugin/send_email.html" patient false, []).

End pages.

(** ** [template_hooks.py]: the fragments added to the host's pages *)

Module template_hooks.

(** Values of a page context. *)
Inductive tval :=
| TNone
| TBool (b : bool)
| TPatient (p : Patient)
| TProfile (p : PatientEmail)
| TForm (instance : PatientEmail)
| TRequest (r : views.request).

(** [bool(v)]. *)
Definition tval_truthy (v : tval) : bool :=
  match v with
  | TNone => false
  | TBool b => b
  | _ => true
  end.

(** The template renderer, on the name of the template and the items of
    the context in the order the hook wrote them. *)
Definition renderer : Type := string → list (string * tval) → world → result string.

Definition render_hook (R : renderer) (template_name : string)
    (context : list (string * tval)) : M string :=
  w ← get_world; lift_result (R template_name context w).

(** [patient.email_profile] where [patient] is whatever the page context
    held: a value that is no [Patient] has no such attribute. *)
Definition attr_email_profile (E : env) (patient : tval) : M PatientEmail :=
  match patient with
  | TPatient p => patient_methods.email_profile E p
  | _ => raise (Exn "AttributeError" "object has no attribute 'email_profile'")
  end.

Definition of_profile (x : option PatientEmail) : tval :=
  match x with
  | Some p => TProfile p
  | None => TNone
  end.

(** [PatientTemplateHooks.patient_detail_email_section]. *)
Definition patient_detail_email_section (E : env) (R : renderer)
    (context : gmap string tval) (request : views.request) : M string :=
  let patient := default TNone (context !! "patient") in
  if negb (tval_truthy patient) then ret ""
  else
    let has_permission :=
      views.has_perm request "patient_email_plugin.can_manage_patient_emails" in
    email_profile ← try_except (p ← attr_email_profile E patient; ret (Some p))
                               (λ _, ret None);
    render_hook R "patient_email_plugin/partials/patient_detail_email_section.html"
      [("patient", patient); ("email_profile", of_profile email_profile);
       ("has_email_permission", TBool has_permission); ("request", TRequest request)].

(** [PatientEmail.objects.get_or_create(patient=patient, ...)] where
    [patient] is whatever the page context held. *)
Definition get_or_create_for (E : env) (patient : tval) (org : Z) : M (loc * bool) :=
  match patient with
  | TPatient p => get_or_create E p org
  | _ => raise (Exn "ValueError" "Cannot query: must be a Patient instance.")
  end.

(** [PatientTemplateHooks.patient_edit_email_section]. *)
Definition patient_edit_email_section (E : env) (R : renderer)
    (context : gmap string tval) (request : views.request) : M string :=
  let patient := default TNone (context !! "patient") in
  if negb (tval_truthy patient) then ret ""
  else
    let has_permission :=
      views.has_perm request "patient_email_plugin.can_manage_patient_emails" in
    email_profile ← try_except
                      ('(email_profile, created) ←
                         get_or_create_for E patient (views.user_organization request);
                       p ← read_obj email_profile;
                       ret (Some p))
                      (λ _, ret None);
    let form := match email_profile with
                | Some p => TForm p
                | None => TNone
                end in
    render_hook R "patient_email_plugin/partials/patient_edit_email_section.html"
      [("patient", patient); ("email_profile", of_profile email_profile);
       ("email_form", form); ("has_email_permission", TBool has_permission);
       ("request", TRequest request)].

(** [PatientTemplateHooks.patient_detail_sidebar_email_widget]. *)
Definition patient_detail_sidebar_email_widget (E : env) (R : renderer)
    (context : gmap string tval) (request : views.request) : M string :=
  let patient := default TNone (context !! "patient") in
  if negb (tval_truthy patient) then ret ""
  else
    '(email_profile, has_email) ←
      try_except (p ← attr_email_profile E patient;
                  ret (Some p, truthy (get_preferred_email p)))
                 (λ _, ret (None, false));
    render_hook R "patient_email_plugin/partials/patient_detail_sidebar_email_widget.html"
      [("patient", patient); ("email_profile", of_profile email_profile);
       ("has_email", TBool has_email); ("request", TRequest request)].

End template_hooks.

(** ** [views.py]: the view of the detail section *)

Module partial_views.

(** [isinstance(e, PatientEmail.DoesNotExist)]: the class itself, or the
    class the reverse side of a one-to-one field raises, which derives
    from it. *)
Definition is_DoesNotExist (e : exn) : bool :=
  String.eqb (exn_class e) "DoesNotExist"
  || String.eqb (exn_class e) "RelatedObjectDoesNotExist".

(** [try: body except PatientEmail.DoesNotExist: handler]. *)
Definition try_except_DoesNotExist {A} (body : M A) (handler : M A) : M A :=
  λ w, match body w with
       | (Ok a, w') => (Ok a, w')
       | (Raise e, w') => if is_DoesNotExist e then handler w' else (Raise e, w')
       end.

(** [patient_detail_email_section(request, patient_id)]; the answer is the
    rendered body. *)
Definition patient_detail_email_section (E : env) (R : template_hooks.renderer)
    (request : views.request) (patient_id : Z) : M string :=
  patient ← views.get_object_or_404 patient_id (views.user_organization request);
  email_profile ← try_except_DoesNotExist
                    (p ← patient_methods.email_profile E patient; ret (Some p))
                    (ret None);
  template_hooks.render_hook R
    "patient_email_plugin/partials/patient_detail_email_section.html"
    [("patient", template_hooks.TPatient patient);
     ("email_profile", template_hooks.of_profile email_profile);
     ("has_email_permission",
      template_hooks.TBool
        (views.has_perm request "patient_email_plugin.can_manage_patient_emails"))].

End partial_views.

(** ** More vocabulary *)

Definition is_send_mail (ev : event) : bool :=
  match ev with
  | EvSendMail _ _ => true
  | _ => false
  end.

Definition is_print (ev : event) : bool :=
  match ev with
  | EvPrint _ => true
  | _ => false
  end.

(** The profile a read of [patient.email_profile] gets hold of, if any. *)
Definition readable_profile (E : env) (p : Patient) (w : world) : option PatientEmail :=
  match fetch_fault E p w with
  | Some _ => None
  | None => db w !! pk p
  end.

(** The same for whatever value a page context holds under ["patient"]. *)
Definition readable_profile_of (E : env) (v : template_hooks.tval) (w : world)
    : option PatientEmail :=
  match v with
  | template_hooks.TPatient p => readable_profile E p w
  | _ => None
  end.

(** Whether a profile that was read, if one was, has a preferred address. *)
Definition sidebar_flag (x : option PatientEmail) : bool :=
  match x with
  | Some p => truthy (get_preferred_email p)
  | None => false
  end.

(** ** More sample data *)

Module more_samples.

(** The transport returns without having taken the message. *)
Definition E_refuses : env :=
  mkEnv (λ _ _ _, Ok "<p>Hello</p>") (sample.strip false) (λ _ _, Ok 0)
        (λ _ _, None) (λ _ _, None) (λ _ _, None) (λ _ _, None) sample.quiet.

(** A profile that prefers a secondary address it does not have. *)
Definition no_address : PatientEmail :=
  mkPatientEmail sample.ana 3 None None false true "secondary" false None.

(** A user of another organization, holding both permissions. *)
Definition visitor : views.request :=
  views.mkRequest ["patient_email_plugin.can_send_patient_emails";
                   "patient_email_plugin.can_manage_patient_emails"] 4 ∅.

(** A user of the patient's organization without permissions. *)
Definition guest : views.request := views.mkRequest [] 3 ∅.

Definition welcome : views.request :=
  views.mkRequest ["patient_email_plugin.can_send_patient_emails"] 3
    {["action" := "send_welcome"]}.

(** A renderer that names the template it was given. *)
Definition R : template_hooks.renderer := λ template_name _ _, Ok template_name.

(** A renderer that finds no template. *)
Definition R_missing : template_hooks.renderer :=
  λ _ _ _, Raise (Exn "TemplateDoesNotExist" "partial").

(** A validator that accepts a subject and a message that are not empty. *)
Definition validate (POST : gmap string string) : option pages.send_data :=
  match POST !! "subject", POST !! "message" with
  | Some s, Some m =>
      if truthy (Some s) && truthy (Some m)
      then Some (pages.mkSendData s m (POST !! "html_message"))
      else None
  | _, _ => None
  end.

Definition full_name (p : Patient) : string := "Ana Diaz".

Definition post : pages.http_request :=
  pages.mkHttp
    (views.mkRequest ["patient_email_plugin.can_send_patient_emails"] 3
       {["subject" := "Hi"; "message" := "Body"]})
    "POST".

End more_samples.

(** * Proofs *)

(** ** Running the computations *)

Ltac py_unfold :=
  unfold models.deliver, models.render_content,
    save, setattr_last_email_sent, timezone_now, call_send_mail, call_render_to_string,
    dict_setitem, read_dict, read_obj, alloc_dict, alloc_obj, print, emit, modify,
    get_world, lift_result, try_except, raise, ret, mbind, M_bind, bind in *.

Ltac elems := decompose_list_elem_of; subst.


Lemma truthy_Some s : truthy (Some s) = true ↔ s ≠ "".
Proof.
  unfold truthy. destruct (String.eqb_spec s ""); cbn; split; intros; congruence.
Qed.

Lemma passes_gate_false p :
  passes_gate p = false ↔
  email_notifications_enabled p = false ∨ email_bounced p = true
  ∨ truthy (get_preferred_email p) = false.
Proof.
  unfold passes_gate.
  destruct (email_notifications_enabled p), (email_bounced p),
    (truthy (get_preferred_email p)); cbn; intuition congruence.
Qed.

Lemma bind_run {A B} (m : M A) (k : A → M B) w :
  (m ≫= k) w =
    match m w with
    | (Ok a, w1) => k a w1
    | (Raise e, w1) => (Raise e, w1)
    end.
Proof. reflexivity. Qed.

Lemma str_eq_false (x : option string) (s : string) :
  x ≠ Some s → views.str_eq x s = false.
Proof.
  destruct x as [a|]; [|done]. cbn. intros Hne.
  destruct (String.eqb_spec a s); [|done]. by subst.
Qed.

(** ** Events and faults *)

Lemma no_faults_only e evs : no_faults evs → faults_only e evs.
Proof. intros H ev e' Hin Hf. rewrite (H ev Hin) in Hf. done. Qed.

Lemma faults_only_app e evs1 evs2 :
  faults_only e evs1 → faults_only e evs2 → faults_only e (evs1 ++ evs2).
Proof. intros H1 H2 ev e' [?|?]%elem_of_app; eauto. Qed.

Lemma no_faults_app evs1 evs2 : no_faults evs1 → no_faults evs2 → no_faults (evs1 ++ evs2).
Proof. intros H1 H2 ev [?|?]%elem_of_app; eauto. Qed.

Lemma not_accepted_print line : ¬ accepted (EvPrint line).
Proof. by intros (m & n & ? & _). Qed.

(** ** The augmented context *)




(** ** The template name cleaner *)

Lemma lower_char_normal c :
  negb ((65 <=? N_of_ascii (forms.lower_char c))%N
        && (N_of_ascii (forms.lower_char c) <=? 90)%N) = true.
Proof.
  unfold forms.lower_char.
  destruct ((65 <=? N_of_ascii c)%N && (N_of_ascii c <=? 90)%N) eqn:Hc.
  - apply andb_true_iff in Hc as [H1%N.leb_le H2%N.leb_le].
    rewrite N_ascii_embedding by lia.
    apply negb_true_iff, andb_false_iff. right. apply N.leb_gt. lia.
  - by rewrite Hc.
Qed.

Lemma normalized_all_normal s :
  all_chars normal_char (forms.replace_char " " "_" (forms.lower s)) = true.
Proof.
  induction s as [|c s IH]; [done|]. cbn [forms.lower forms.replace_char all_chars].
  rewrite IH, andb_true_r. unfold normal_char.
  destruct (Ascii.eqb (forms.lower_char c) " ") eqn:Hsp; [done|].
  rewrite Hsp. cbn. apply lower_char_normal.
Qed.

Lemma normal_char_fixed c :
  normal_char c = true →
  (if Ascii.eqb (forms.lower_char c) " " then "_"%char else forms.lower_char c) = c.
Proof.
  unfold normal_char, forms.lower_char. intros [Hsp Hup]%andb_true_iff.
  apply negb_true_iff in Hup. rewrite Hup.
  apply negb_true_iff in Hsp. by rewrite Hsp.
Qed.

Lemma normalized_fixed s :
  all_chars normal_char s = true →
  forms.replace_char " " "_" (forms.lower s) = s.
Proof.
  induction s as [|c s IH]; [done|]. cbn [forms.lower forms.replace_char all_chars].
  intros [Hc Hs]%andb_true_iff. by rewrite IH, normal_char_fixed.
Qed.

Lemma normalized_length s :
  String.length (forms.replace_char " " "_" (forms.lower s)) = String.length s.
Proof. induction s as [|c s IH]; [done|]. cbn. by rewrite IH. Qed.

Lemma lower_7bit s :
  all_chars forms.is_7bit s = true → all_chars forms.is_7bit (forms.lower s) = true.
Proof.
  induction s as [|c s IH]; [done|]. cbn [forms.lower all_chars].
  intros [Hc Hs]%andb_true_iff. rewrite IH, andb_true_r by done.
  unfold forms.is_7bit, forms.lower_char in *. apply N.ltb_lt in Hc.
  destruct ((65 <=? N_of_ascii c)%N && (N_of_ascii c <=? 90)%N) eqn:Hup.
  - apply andb_true_iff in Hup as [H1%N.leb_le H2%N.leb_le].
    rewrite N_ascii_embedding by lia. apply N.ltb_lt. lia.
  - by apply N.ltb_lt.
Qed.

Lemma replace_7bit s :
  all_chars forms.is_7bit s = true →
  all_chars forms.is_7bit (forms.replace_char " " "_" s) = true.
Proof.
  induction s as [|c s IH]; [done|]. cbn [forms.replace_char all_chars].
  intros [Hc Hs]%andb_true_iff. rewrite IH, andb_true_r by done.
  by destruct (Ascii.eqb c " ").
Qed.

Lemma replace_no_space s :
  all_chars (λ c, negb (Ascii.eqb c " ")) (forms.replace_char " " "_" s) = true.
Proof.
  induction s as [|c s IH]; [done|]. cbn [forms.replace_char all_chars].
  rewrite IH, andb_true_r. by destruct (Ascii.eqb c " ") eqn:Hc; [|rewrite Hc].
Qed.

Lemma clean_name_7bit str_lower s :
  lowers_7bit str_lower → s ≠ "" → all_chars forms.is_7bit s = true →
  forms.clean_name str_lower (Some s)
  = Some (forms.replace_char " " "_" (forms.lower s)).
Proof.
  intros Hl Hne%truthy_Some H7. unfold forms.clean_name. rewrite Hne.
  cbn [default from_option id]. by rewrite Hl.
Qed.

(** ** The send path, for a fixed environment *)

Section send_path.

Context (E : env).

(** *** The gate *)

(** A profile the gate stops: nothing happens. *)
Lemma send_email_closed self p w subject message html tpl ctx from :
  objs w !! self = Some p → passes_gate p = false →
  models.send_email E self subject message html tpl ctx from w = (Ok false, w).
Proof.
  intros Hp Hg. unfold models.send_email. py_unfold. cbn. rewrite Hp. cbn.
  destruct (email_notifications_enabled p) eqn:H1; cbn; [|done].
  destruct (email_bounced p) eqn:H2; cbn; [done|].
  destruct (truthy (get_preferred_email p)) eqn:H3; cbn; [|done].
  unfold passes_gate in Hg. by rewrite H1, H2, H3 in Hg.
Qed.

(** The handler, run: it raises what its read of [self.patient] or its
    [print] raises, and else prints the line and returns [False]. *)
Lemma handler_eq self p e w :
  objs w !! self = Some p →
  models.handler E self e w =
    match handler_fault E self p e w with
    | Some e' => (Raise e', w)
    | None => (Ok false, record_event E (EvPrint (failure_line p e)) w)
    end.
Proof.
  intros Hp. unfold models.handler, read_patient, print, handler_fault, failure_line.
  py_unfold. cbn. rewrite Hp. cbn.
  destruct (patient_fault E self w); cbn; [done|].
  destruct (print_fault E _ w); done.
Qed.

(** A profile the gate lets through: the [try] block runs, and the
    handler gets what it raises. *)
Lemma send_email_try self p w subject message html tpl ctx from :
  objs w !! self = Some p → passes_gate p = true →
  models.send_email E self subject message html tpl ctx from w =
    match models.try_block E self p subject message html tpl ctx from
            (default "" (get_preferred_email p)) w with
    | (Ok b, w1) => (Ok b, w1)
    | (Raise e, w1) => models.handler E self e w1
    end.
Proof.
  intros Hp Hg. unfold passes_gate in Hg.
  apply andb_true_iff in Hg as [Hg H3]. apply andb_true_iff in Hg as [H1 H2].
  apply negb_true_iff in H2.
  unfold models.send_email, read_obj, get_world, try_except, ret, mbind, M_bind, bind.
  cbn. rewrite Hp. cbn. rewrite H1, H2, H3. cbn.
  destruct (models.try_block _ _ _ _ _ _ _ _ _ _ w) as [[b|e] w1]; done.
Qed.

Lemma try_block_eq self p subject message html tpl ctx from addr w :
  models.try_block E self p subject message html tpl ctx from addr w =
    match models.render_content E self p message html tpl ctx w with
    | (Ok (message', html'), w1) =>
        models.deliver E self subject message' html' from addr w1
    | (Raise e, w1) => (Raise e, w1)
    end.
Proof.
  unfold models.try_block, mbind, M_bind, bind.
  destruct (models.render_content _ _ _ _ _ _ _ w) as [[[??]|?] ?]; done.
Qed.

(** *** The rendering step *)

Lemma render_content_plain self p message html tpl ctx w :
  (if truthy tpl then ctx else None) = None →
  models.render_content E self p message html tpl ctx w = (Ok (message, html), w).
Proof. intros H. unfold models.render_content. rewrite H. done. Qed.

Lemma render_content_template self p message html tpl ctx d w :
  truthy tpl = true → dicts w !! ctx = Some d →
  models.render_content E self p message html tpl (Some ctx) w =
    let d' := augmented self p d in
    let w1 := set_dicts (insert ctx d') w in
    let r := render_to_string E (default "" tpl) d' w1 in
    let w2 := record_event E (EvRender (default "" tpl) d' r) w1 in
    match r with
    | Raise e => (Raise e, w2)
    | Ok h => (Ok (if truthy message then message else Some (strip_tags E h), Some h), w2)
    end.
Proof.
  intros Ht Hd. unfold models.render_content. rewrite Ht. py_unfold. cbn.
  rewrite Hd. cbn. rewrite lookup_insert_eq. cbn. rewrite lookup_insert_eq. cbn.
  unfold set_dicts. cbn. rewrite insert_insert_eq. fold (augmented self p d).
  destruct (render_to_string E _ _ _) as [h|e]; cbn; [|done].
  destruct (truthy message); done.
Qed.

Lemma render_content_dangling self p message html tpl ctx w :
  truthy tpl = true → dicts w !! ctx = None →
  models.render_content E self p message html tpl (Some ctx) w =
    (Raise (Exn "ReferenceError" "no such object"), w).
Proof.
  intros Ht Hd. unfold models.render_content. rewrite Ht. py_unfold. cbn.
  by rewrite Hd.
Qed.

(** What the rendering step leaves alone, and the events it adds. *)
Lemma render_content_frame self p message html tpl ctx w r w1 :
  models.render_content E self p message html tpl ctx w = (r, w1) →
  objs w1 = objs w ∧ db w1 = db w ∧ now w ≤ now w1 ∧
  ∃ evs, trace w1 = trace w ++ evs ∧
    (∀ ev, ev ∈ evs → ¬ accepted ev) ∧
    match r with
    | Ok _ => no_faults evs
    | Raise e => faults_only e evs
    end.
Proof.
  intros Hrun.
  destruct (if truthy tpl then ctx else None) as [c|] eqn:Hc.
  - destruct (truthy tpl) eqn:Ht; [|done]. subst ctx.
    destruct (dicts w !! c) as [d|] eqn:Hd.
    + rewrite (render_content_template _ _ _ _ _ _ d) in Hrun by done. cbn in Hrun.
      destruct (render_to_string E _ _ _) as [h|e] eqn:Hr; simplify_eq; cbn;
        (split_and!; [done|done|lia|]); eexists [_]; (split_and!; [done| |]).
      * intros ev Hin (m & n & ? & _). by elems.
      * intros ev Hin. by elems.
      * intros ev Hin (m & n & ? & _). by elems.
      * intros ev e' Hin Hev. elems. cbn in Hev. congruence.
    + rewrite render_content_dangling in Hrun by done. simplify_eq.
      split_and!; [done|done|lia|]. exists []. rewrite app_nil_r.
      split_and!; [done|by intros ? ?%elem_of_nil|by intros ? ? ?%elem_of_nil].
  - rewrite render_content_plain in Hrun by done. simplify_eq.
    split_and!; [done|done|lia|]. exists []. rewrite app_nil_r.
    split_and!; [done|by intros ? ?%elem_of_nil|by intros ? ?%elem_of_nil].
Qed.

(** *** The delivery step *)

Lemma deliver_eq self p subject message html from addr w :
  objs w !! self = Some p →
  models.deliver E self subject message html from addr w =
    let m := mkMail subject (or_empty message) from [addr] html false in
    let r := send_mail E m w in
    let w1 := record_event E (EvSendMail m r) w in
    match r with
    | Raise e => (Raise e, w1)
    | Ok n =>
        if n =? 0 then (Ok false, w1)
        else
          let p' := set_last_email_sent (Some (now w1)) p in
          let w2 := set_objs (insert self p') w1 in
          match save_fault E p' w2 with
          | Some e =>
              (Raise e,
               record_event E (EvSave (pk (patient p)) ["last_email_sent"] (Raise e)) w2)
          | None =>
              match db w !! pk (patient p) with
              | None =>
                  let e := Exn "DatabaseError"
                             "Save with update_fields did not affect any rows." in
                  (Raise e,
                   record_event E (EvSave (pk (patient p)) ["last_email_sent"] (Raise e)) w2)
              | Some row =>
                  (Ok true,
                   record_event E (EvSave (pk (patient p)) ["last_email_sent"] (Ok tt))
                     (set_db (insert (pk (patient p))
                                (set_last_email_sent (Some (now w1)) row)) w2))
              end
          end
    end.
Proof.
  intros Hp. py_unfold. cbn.
  destruct (send_mail E _ w) as [n|e]; cbn; [|done].
  destruct (n =? 0) eqn:Hn; cbn; [done|].
  rewrite Hp. cbn. rewrite lookup_insert_eq. cbn.
  destruct (save_fault E _ _); cbn; [done|].
  destruct (db w !! _); cbn; done.
Qed.

Lemma deliver_faults self p subject message html from addr w r w2 :
  objs w !! self = Some p →
  models.deliver E self subject message html from addr w = (r, w2) →
  ∃ evs, trace w2 = trace w ++ evs ∧
    match r with Ok _ => no_faults evs | Raise e => faults_only e evs end.
Proof.
  intros Hp Hrun. rewrite (deliver_eq _ p) in Hrun by done. cbn in Hrun.
  destruct (send_mail E _ w) as [n|e] eqn:Hm.
  - destruct (n =? 0) eqn:Hn.
    { simplify_eq. eexists [_]. split; [done|]. intros ev Hin. by elems. }
    destruct (save_fault E _ _) as [e|] eqn:Hs; [|destruct (db w !! _) as [row|] eqn:Hrow];
      simplify_eq; cbn; eexists [_; _]; (split; [by rewrite <-app_assoc|]).
    + intros ev e' Hin Hev. elems; cbn in Hev; congruence.
    + intros ev Hin. by elems.
    + intros ev e' Hin Hev. elems; cbn in Hev; congruence.
  - simplify_eq. eexists [_]. split; [done|].
    intros ev e' Hin Hev. elems. cbn in Hev. congruence.
Qed.


(** The ways the delivery step can end. Either the transport did not take
    the message, and neither the instance nor the table changed; or it
    did, the instance carries the new time, and the table carries it too
    exactly when the step returned [True]. *)
Lemma deliver_outcome self p subject message html from addr w r w2 :
  objs w !! self = Some p →
  models.deliver E self subject message html from addr w = (r, w2) →
  ∃ evs, trace w2 = trace w ++ evs ∧ now w ≤ now w2 ∧ dicts w2 = dicts w ∧
    ((r ≠ Ok true ∧ objs w2 = objs w ∧ db w2 = db w ∧ ∀ ev, ev ∈ evs → ¬ accepted ev)
     ∨ ∃ t, now w ≤ t ∧ t ≤ now w2 ∧ (∃ ev, ev ∈ evs ∧ accepted ev) ∧
         objs w2 = <[self := set_last_email_sent (Some t) p]> (objs w) ∧
         ((∃ e, r = Raise e ∧ db w2 = db w ∧
                EvSave (pk (patient p)) ["last_email_sent"] (Raise e) ∈ evs)
          ∨ (r = Ok true ∧ ∃ row, db w !! pk (patient p) = Some row ∧
               db w2 = <[pk (patient p) := set_last_email_sent (Some t) row]> (db w) ∧
               EvSave (pk (patient p)) ["last_email_sent"] (Ok tt) ∈ evs))).
Proof.
  intros Hp Hrun. rewrite (deliver_eq _ p) in Hrun by done. cbn in Hrun.
  destruct (send_mail E _ w) as [n|e] eqn:Hm.
  - destruct (n =? 0) eqn:Hn.
    { simplify_eq. eexists [_]. cbn. split_and!; [done|lia|done|]. left.
      split_and!; [done..|]. intros ev Hin (m & k & ? & Hk). elems. simplify_eq. lia. }
    set (ev0 := EvSendMail (mkMail subject (or_empty message) from [addr] html false) (Ok n))
      in *.
    assert (accepted ev0) as Hacc by (do 2 eexists; split; [done|lia]).
    destruct (save_fault E _ _) as [e|] eqn:Hs; [|destruct (db w !! _) as [row|] eqn:Hrow];
      simplify_eq; cbn; eexists [_; _];
      (split_and!; [by rewrite <-app_assoc|lia|done|]); right;
      exists (now w + Z.of_N (latency E ev0));
      (split_and!; [lia|lia|exists ev0; split; [set_solver|done]|done|]).
    + left. eexists. split_and!; [done..|]. set_solver.
    + right. split; [done|]. eexists. split_and!; [done..|]. set_solver.
    + left. eexists. split_and!; [done..|]. set_solver.
  - simplify_eq. eexists [_]. cbn. split_and!; [done|lia|done|]. left.
    split_and!; [done..|]. intros ev Hin (m & k & ? & Hk). elems. simplify_eq.
Qed.

(** *** The whole call *)

(** The [try] block leaves the instance the patient it had. *)
Lemma try_block_patient self p subject message html tpl ctx from addr w r w1 :
  objs w !! self = Some p →
  models.try_block E self p subject message html tpl ctx from addr w = (r, w1) →
  ∃ p1, objs w1 !! self = Some p1 ∧ patient p1 = patient p.
Proof.
  intros Hp. rewrite try_block_eq.
  destruct (models.render_content _ _ _ _ _ _ _ w) as [[[m' h']|e] w0] eqn:Hr; intros Hrun;
    apply render_content_frame in Hr as (Ho & _).
  - apply (deliver_outcome _ p) in Hrun as (evs & _ & _ & _ & Hcases); [|by rewrite Ho].
    destruct Hcases as [(_ & -> & _)|(t & _ & _ & _ & -> & _)].
    + exists p. by rewrite Ho.
    + eexists. by rewrite lookup_insert_eq.
  - simplify_eq. exists p. by rewrite Ho.
Qed.

Lemma failure_line_patient p1 p e : patient p1 = patient p → failure_line p1 e = failure_line p e.
Proof. unfold failure_line. by intros ->. Qed.

(** A profile the gate lets through: the [try] block runs; when it raises,
    the handler either raises itself, or prints the line and returns
    [False]. *)
Lemma send_email_open self p w subject message html tpl ctx from :
  objs w !! self = Some p → passes_gate p = true →
  models.send_email E self subject message html tpl ctx from w =
    match models.try_block E self p subject message html tpl ctx from
            (default "" (get_preferred_email p)) w with
    | (Ok b, w1) => (Ok b, w1)
    | (Raise e, w1) =>
        match handler_fault E self p e w1 with
        | Some e' => (Raise e', w1)
        | None => (Ok false, record_event E (EvPrint (failure_line p e)) w1)
        end
    end.
Proof.
  intros Hp Hg. rewrite (send_email_try _ p) by done.
  destruct (models.try_block _ _ _ _ _ _ _ _ _ _ w) as [[b|e] w1] eqn:Hrun; [done|].
  apply (try_block_patient _ p) in Hrun as (p1 & Hp1 & Hpat); [|done].
  rewrite (handler_eq _ p1) by done. unfold handler_fault.
  by rewrite (failure_line_patient p1 p).
Qed.

Lemma try_block_faults self p subject message html tpl ctx from addr w r w2 :
  objs w !! self = Some p →
  models.try_block E self p subject message html tpl ctx from addr w = (r, w2) →
  ∃ evs, trace w2 = trace w ++ evs ∧
    match r with Ok _ => no_faults evs | Raise e => faults_only e evs end.
Proof.
  intros Hp. rewrite try_block_eq.
  destruct (models.render_content _ _ _ _ _ _ _ w) as [[[m' h']|e] w1] eqn:Hr; intros Hrun.
  - apply render_content_frame in Hr as (Ho & _ & _ & evs1 & Ht1 & _ & Hf1).
    apply (deliver_faults _ p) in Hrun as (evs2 & Ht2 & Hf2); [|by rewrite Ho].
    exists (evs1 ++ evs2). split; [by rewrite Ht2, Ht1, app_assoc|].
    destruct r; [by apply no_faults_app|].
    apply faults_only_app; [by apply no_faults_only|done].
  - simplify_eq. apply render_content_frame in Hr as (_ & _ & _ & evs & ? & _ & ?). eauto.
Qed.

(** Every fault of the [try] block is absorbed, unless the handler
    raises. *)
Lemma send_email_absorbed self p w subject message html tpl ctx from :
  objs w !! self = Some p →
  absorbed p w (models.send_email E self subject message html tpl ctx from w)
  ∨ handler_raised E self p (models.send_email E self subject message html tpl ctx from w).
Proof.
  intros Hp. destruct (passes_gate p) eqn:Hg.
  - rewrite (send_email_open _ p) by done.
    destruct (models.try_block _ _ _ _ _ _ _ _ _ _ w) as [[b|e] w1] eqn:Hrun;
      apply try_block_faults in Hrun as (evs & Ht & Hf); try done.
    + left. exists b, evs. split_and!; [done..|].
      intros ev e Hin Hev. by rewrite (Hf ev Hin) in Hev.
    + destruct (handler_fault E self p e w1) as [e'|] eqn:Hh.
      { right. by exists e, e'. }
      left. exists false, (evs ++ [EvPrint (failure_line p e)]).
      split_and!; [done|by cbn; rewrite Ht, app_assoc|].
      intros ev e' Hin Hev. apply elem_of_app in Hin as [Hin|Hin].
      * rewrite (Hf ev e' Hin Hev). by rewrite last_snoc.
      * by elems.
  - left. rewrite (send_email_closed _ p) by done. exists false, [].
    split_and!; [done|by rewrite app_nil_r|]. by intros ev e ?%elem_of_nil.
Qed.

(** Allocating a dictionary changes neither the instances nor the trace. *)
Lemma absorbed_after_alloc self p w d (k : loc → option loc) subject message html tpl from :
  objs w !! self = Some p →
  absorbed p w
    ((context ← alloc_dict d;
      models.send_email E self subject message html tpl (k context) from) w)
  ∨ handler_raised E self p
      ((context ← alloc_dict d;
        models.send_email E self subject message html tpl (k context) from) w).
Proof.
  intros Hp. unfold alloc_dict, get_world, modify, ret, mbind, M_bind, bind. cbn.
  by apply (send_email_absorbed self p (set_dicts _ w)).
Qed.

(** The ways a whole call of [send_email] that returns can end. *)
Lemma send_email_outcome self p w subject message html tpl ctx from b w' :
  objs w !! self = Some p →
  models.send_email E self subject message html tpl ctx from w = (Ok b, w') →
  ∃ evs, trace w' = trace w ++ evs ∧ now w ≤ now w' ∧
    ((b = false ∧ objs w' = objs w ∧ db w' = db w ∧ ∀ ev, ev ∈ evs → ¬ accepted ev)
     ∨ ∃ t, now w ≤ t ∧ t ≤ now w' ∧ (∃ ev, ev ∈ evs ∧ accepted ev) ∧
         objs w' = <[self := set_last_email_sent (Some t) p]> (objs w) ∧
         ((b = false ∧ db w' = db w ∧
             ∃ e, EvSave (pk (patient p)) ["last_email_sent"] (Raise e) ∈ evs)
          ∨ (b = true ∧ ∃ row, db w !! pk (patient p) = Some row ∧
               db w' = <[pk (patient p) := set_last_email_sent (Some t) row]> (db w) ∧
               EvSave (pk (patient p)) ["last_email_sent"] (Ok tt) ∈ evs))).
Proof.
  intros Hp. destruct (passes_gate p) eqn:Hg.
  2:{ rewrite (send_email_closed _ p) by done. intros ?; simplify_eq.
      exists []. rewrite app_nil_r. split_and!; [done|lia|]. left.
      split_and!; [done..|]. by intros ? ?%elem_of_nil. }
  rewrite (send_email_open _ p), try_block_eq by done.
  destruct (models.render_content _ _ _ _ _ _ _ w) as [[[m' h']|e] w1] eqn:Hr;
    apply render_content_frame in Hr as (Ho & Hdb & Hnow & evs1 & Ht1 & Hn1 & _).
  2:{ destruct (handler_fault E self p e w1); intros ?; simplify_eq.
      exists (evs1 ++ [EvPrint (failure_line p e)]).
      cbn. split_and!; [by rewrite Ht1, app_assoc|lia|]. left.
      split_and!; [done..|]. intros ev [?|?]%elem_of_app; [by apply Hn1|].
      elems. apply not_accepted_print. }
  destruct (models.deliver _ _ _ _ _ _ _ w1) as [r2 w2] eqn:Hd.
  apply (deliver_outcome _ p) in Hd as (evs2 & Ht2 & Hnow2 & _ & Hcases);
    [|by rewrite Ho].
  rewrite Ho, Hdb in Hcases.
  destruct Hcases as [(Hne & Ho2 & Hdb2 & Hn2)|(t & Ht & Ht' & (ev0 & Hin0 & Hacc) & Ho2 & Hrest)].
  - destruct r2 as [b2|e]; [|destruct (handler_fault E self p e w2)]; intros ?; simplify_eq.
    + exists (evs1 ++ evs2). split_and!; [by rewrite Ht2, Ht1, app_assoc|lia|].
      left. split_and!; [by destruct b|done..|].
      intros ev [?|?]%elem_of_app; eauto.
    + exists (evs1 ++ evs2 ++ [EvPrint (failure_line p e)]). cbn.
      split_and!; [by rewrite Ht2, Ht1, !app_assoc|lia|].
      left. split_and!; [done..|].
      intros ev [?|[?|?]%elem_of_app]%elem_of_app; eauto.
      elems. apply not_accepted_print.
  - destruct Hrest as [(e & -> & Hdb2 & Hsave)|(-> & row & Hrow & Hdb2 & Hsave)];
      [destruct (handler_fault E self p e w2)|]; intros ?; simplify_eq.
    + exists (evs1 ++ evs2 ++ [EvPrint (failure_line p e)]). cbn.
      split_and!; [by rewrite Ht2, Ht1, !app_assoc|lia|].
      right. exists t. split_and!; [lia|lia|exists ev0; set_solver|done|].
      left. split_and!; [done..|]. exists e. set_solver.
    + exists (evs1 ++ evs2).
      split_and!; [by rewrite Ht2, Ht1, !app_assoc|lia|].
      right. exists t. split_and!; [lia|lia|exists ev0; set_solver|done|].
      right. split; [done|]. exists row. split_and!; [done..|]. set_solver.
Qed.


(** *** The profile fetch *)

Lemma get_email_profile_eq patient w :
  model_extensions.get_email_profile E patient w =
    let l := fresh (dom (objs w)) in
    match fetch_fault E patient w with
    | Some e => (Raise e, record_event E (EvGetOrCreate (pk patient) (Raise e)) w)
    | None =>
        match db w !! pk patient with
        | Some row =>
            (Ok l, set_objs (insert l row)
                     (record_event E (EvGetOrCreate (pk patient) (Ok false)) w))
        | None =>
            let row := new_profile patient (patient_organization patient) in
            (Ok l, set_objs (insert l row)
                     (record_event E (EvGetOrCreate (pk patient) (Ok true))
                        (set_db (insert (pk patient) row) w)))
        end
    end.
Proof.
  unfold model_extensions.get_email_profile, get_or_create. py_unfold. cbn.
  destruct (fetch_fault E patient w); cbn; [done|].
  destruct (db w !! pk patient); done.
Qed.

(** A fetch that returns hands over an instance that is in memory. *)
Lemma get_email_profile_allocated patient w l w1 :
  model_extensions.get_email_profile E patient w = (Ok l, w1) →
  ∃ row, objs w1 !! l = Some row ∧ db w1 !! pk patient = Some row.
Proof.
  rewrite get_email_profile_eq. cbn.
  destruct (fetch_fault E patient w); [done|].
  destruct (db w !! pk patient) as [row|] eqn:Hrow; intros; simplify_eq; cbn.
  - exists row. by rewrite lookup_insert_eq.
  - eexists. by rewrite !lookup_insert_eq.
Qed.

End send_path.

(** ** The send path, event by event *)

Section send_path_events.

Context (E : env).

Lemma render_content_only_renders self p message html tpl ctx w r w1 :
  models.render_content E self p message html tpl ctx w = (r, w1) →
  ∃ evs, trace w1 = trace w ++ evs ∧
    ∀ ev, ev ∈ evs →
      is_send_mail ev = false ∧ is_print ev = false ∧ ∃ t d o, ev = EvRender t d o.
Proof.
  intros Hrun.
  destruct (if truthy tpl then ctx else None) as [c|] eqn:Hc.
  - destruct (truthy tpl) eqn:Ht; [|done]. subst ctx.
    destruct (dicts w !! c) as [d|] eqn:Hd.
    + rewrite (render_content_template _ _ _ _ _ _ _ d) in Hrun by done. cbn in Hrun.
      destruct (render_to_string E _ _ _) as [h|e] eqn:Hr; simplify_eq; cbn;
        eexists [_]; (split; [done|]); intros ev Hin; elems;
        (split_and!; [done..|by do 3 eexists]).
    + rewrite render_content_dangling in Hrun by done. simplify_eq.
      exists []. rewrite app_nil_r. split; [done|]. by intros ? ?%elem_of_nil.
  - rewrite render_content_plain in Hrun by done. simplify_eq.
    exists []. rewrite app_nil_r. split; [done|]. by intros ? ?%elem_of_nil.
Qed.

(** Every way one call of [send_email] can go, with the events it adds:
    those of the rendering step, then those of delivery and of the
    handler. *)
Lemma send_email_events self p w subject message html tpl ctx from r w' :
  objs w !! self = Some p →
  models.send_email E self subject message html tpl ctx from w = (r, w') →
  ∃ evs_r tail,
    trace w' = trace w ++ evs_r ++ tail ∧
    (∀ ev, ev ∈ evs_r →
       is_send_mail ev = false ∧ is_print ev = false ∧ ∃ t d o, ev = EvRender t d o) ∧
    ((passes_gate p = false ∧ evs_r = [] ∧ tail = [] ∧ r = Ok false ∧ w' = w)
     ∨ (passes_gate p = true ∧
        ((∃ e, handler_events E self p e r w' tail ∧ objs w' = objs w ∧ db w' = db w)
         ∨ ∃ m o,
             mail_subject m = subject ∧ mail_from_email m = from ∧
             mail_recipient_list m = [default "" (get_preferred_email p)] ∧
             mail_fail_silently m = false ∧
             ((∃ e hevs, o = Raise e ∧ tail = EvSendMail m o :: hevs ∧
                    handler_events E self p e r w' hevs ∧ objs w' = objs w ∧ db w' = db w)
              ∨ (o = Ok 0 ∧ tail = [EvSendMail m o] ∧ r = Ok false ∧
                 objs w' = objs w ∧ db w' = db w)
              ∨ (∃ n e hevs, o = Ok n ∧ n ≠ 0 ∧
                   tail = EvSendMail m o
                          :: EvSave (pk (patient p)) ["last_email_sent"] (Raise e) :: hevs ∧
                   handler_events E self p e r w' hevs ∧ db w' = db w)
              ∨ (∃ n, o = Ok n ∧ n ≠ 0 ∧
                   tail = [EvSendMail m o;
                           EvSave (pk (patient p)) ["last_email_sent"] (Ok tt)] ∧
                   r = Ok true))))).
Proof.
  intros Hp. destruct (passes_gate p) eqn:Hg.
  2:{ rewrite (send_email_closed _ _ p) by done. intros ?; simplify_eq.
      exists [], []. rewrite !app_nil_r. split_and!; [done|by intros ? ?%elem_of_nil|].
      by left. }
  assert (∀ e w1,
            match handler_fault E self p e w1 with
            | Some e' => (Raise e', w1)
            | None => (Ok false, record_event E (EvPrint (failure_line p e)) w1)
            end = (r, w') →
            ∃ hevs, handler_events E self p e r w' hevs ∧ trace w' = trace w1 ++ hevs ∧
                    objs w' = objs w1 ∧ db w' = db w1) as Hh.
  { intros e w1 Hrun. destruct (handler_fault E self p e w1) as [e'|] eqn:Hf; simplify_eq.
    - exists []. rewrite app_nil_r. split_and!; [right; by exists e'|done..].
    - eexists [_]. split_and!; [by left|done..]. }
  rewrite (send_email_open _ _ p), try_block_eq by done.
  destruct (models.render_content _ _ _ _ _ _ _ w) as [[[m' h']|e] w1] eqn:Hr;
    pose proof Hr as (Ho & Hdb & _)%render_content_frame;
    apply render_content_only_renders in Hr as (evs_r & Ht1 & Hr1).
  2:{ intros (hevs & Hev & Ht & Ho' & Hdb')%Hh. exists evs_r, hevs.
      split_and!; [by rewrite Ht, Ht1, app_assoc|done|]. right. split; [done|]. left.
      exists e. split_and!; [done|congruence..]. }
  rewrite (deliver_eq _ _ p) by (by rewrite Ho). cbn.
  set (m := mkMail subject (or_empty m') from [default "" (get_preferred_email p)] h' false).
  destruct (send_mail E m w1) as [n|e] eqn:Hm.
  - destruct (n =? 0) eqn:Hn.
    { apply Z.eqb_eq in Hn as ->. intros ?; simplify_eq. exists evs_r, [EvSendMail m (Ok 0)].
      cbn. split_and!; [by rewrite Ht1, app_assoc|done|]. right. split; [done|]. right.
      exists m, (Ok 0). split_and!; [done..|]. right. left. done. }
    apply Z.eqb_neq in Hn.
    destruct (save_fault E _ _) as [e|] eqn:Hs; [|destruct (db w1 !! _) as [row|] eqn:Hrow].
    + intros (hevs & Hev & Ht & Ho' & Hdb')%Hh. cbn in Ht, Hdb'.
      exists evs_r, (EvSendMail m (Ok n)
                     :: EvSave (pk (patient p)) ["last_email_sent"] (Raise e) :: hevs).
      split_and!; [by rewrite Ht, Ht1, <-!app_assoc|done|]. right. split; [done|]. right.
      exists m, (Ok n). split_and!; [done..|]. right. right. left.
      exists n, e, hevs. split_and!; [done..|congruence].
    + intros ?; simplify_eq; cbn.
      exists evs_r, [EvSendMail m (Ok n); EvSave (pk (patient p)) ["last_email_sent"] (Ok tt)].
      split_and!; [by rewrite Ht1, <-!app_assoc|done|]. right. split; [done|]. right.
      exists m, (Ok n). split_and!; [done..|]. right. right. right. by exists n.
    + intros (hevs & Hev & Ht & Ho' & Hdb')%Hh. cbn in Ht, Hdb'.
      eexists evs_r, (EvSendMail m (Ok n)
                      :: EvSave (pk (patient p)) ["last_email_sent"] (Raise _) :: hevs).
      split_and!; [by rewrite Ht, Ht1, <-!app_assoc|done|]. right. split; [done|]. right.
      exists m, (Ok n). split_and!; [done..|]. right. right. left.
      eexists n, _, hevs. split_and!; [done..|congruence].
  - intros (hevs & Hev & Ht & Ho' & Hdb')%Hh. cbn in Ht, Ho', Hdb'.
    exists evs_r, (EvSendMail m (Raise e) :: hevs).
    split_and!; [by rewrite Ht, Ht1, <-!app_assoc|done|]. right. split; [done|]. right.
    exists m, (Raise e). split_and!; [done..|]. left.
    exists e, hevs. split_and!; [done..|congruence|congruence].
Qed.

End send_path_events.

(** ** The claims *)

(** C1. For every profile, [send_email] returns [False], raises nothing
    and calls no collaborator (the world, and with it the trace of calls
    to the mail transport, is what it was) when notifications are
    disabled, or the bounce flag is set, or [get_preferred_email()]
    yields no address. *)
Theorem send_email_gate (E : env) (self : loc) (p : PatientEmail) (w : world)
    (subject : string) (message html_message template_name : option string)
    (context : option loc) (from_email : option string) :
  objs w !! self = Some p →
  email_notifications_enabled p = false ∨ email_bounced p = true
    ∨ truthy (get_preferred_email p) = false →
  models.send_email E self subject message html_message template_name context from_email w
    = (Ok false, w).
Proof.
  intros Hp Hg. apply (send_email_closed _ _ p); [done|]. by apply passes_gate_false.
Qed.

Lemma send_email_gate_witness :
  objs (sample.world_of sample.bounced) !! 1%positive = Some sample.bounced ∧
  (email_notifications_enabled sample.bounced = false ∨ email_bounced sample.bounced = true
   ∨ truthy (get_preferred_email sample.bounced) = false) ∧
  models.send_email sample.E 1%positive "Hi" (Some "Body") None None None None
      (sample.world_of sample.bounced)
    = (Ok false, sample.world_of sample.bounced).
Proof.
  split; [reflexivity|]. split; [right; left; reflexivity|].
  apply (send_email_gate sample.E 1%positive sample.bounced); [reflexivity|].
  right; left; reflexivity.
Defined.

(** C2. [get_preferred_email()] returns [secondary_email] when
    [preferred_email] is ["secondary"] and [secondary_email] is not empty;
    otherwise it returns [email], falling back to [secondary_email] when
    [email] is empty; with both addresses empty what it returns is empty. *)
Theorem get_preferred_email_spec (p : PatientEmail) :
  (preferred_email p = "secondary" ∧ truthy (secondary_email p) = true →
     get_preferred_email p = secondary_email p) ∧
  (¬ (preferred_email p = "secondary" ∧ truthy (secondary_email p) = true) →
     (truthy (email p) = true → get_preferred_email p = email p) ∧
     (truthy (email p) = false → get_preferred_email p = secondary_email p)) ∧
  (truthy (email p) = false ∧ truthy (secondary_email p) = false →
     truthy (get_preferred_email p) = false).
Proof.
  unfold get_preferred_email, py_or.
  destruct (String.eqb_spec (preferred_email p) "secondary") as [Heq|Hne];
    destruct (truthy (secondary_email p)) eqn:Hs, (truthy (email p)) eqn:He; cbn;
    rewrite ?Hs, ?He; intuition congruence.
Qed.

(** C3, as amended. Every fault raised inside the [try] block of
    [PatientEmail.send_email] is caught there. The handler then reads
    [self.patient.pk] and prints the line that names the patient by that
    key, outside any [try]: when these two steps return, the call returns
    [False], and the line is the last thing it did. So for
    [PatientEmail.send_email] and the three operations derived from it:
    the call returns a boolean, which is [False] after any collaborator's
    fault, with the line printed last, unless the handler's own read or
    [print] raised, which is then what reaches the caller. The methods of
    the same names that [model_extensions] adds to [Patient] fetch or
    create the profile first, outside any handler: what that fetch raises
    reaches the caller, and after a fetch that returned they behave as the
    operations of the profile do. *)
Theorem send_path_absorbs_faults (E : env) (w : world) :
  (∀ self p, objs w !! self = Some p →
     (∀ subject message html_message template_name context from_email,
        (absorbed p w
           (models.send_email E self subject message html_message template_name
              context from_email w)
         ∨ handler_raised E self p
             (models.send_email E self subject message html_message template_name
                context from_email w)) ∧
        (∀ e w1, passes_gate p = true →
           models.try_block E self p subject message html_message template_name
             context from_email (default "" (get_preferred_email p)) w = (Raise e, w1) →
           models.send_email E self subject message html_message template_name
             context from_email w
           = match handler_fault E self p e w1 with
             | Some e' => (Raise e', w1)
             | None =>
                 (Ok false,
                  record_event E
                    (EvPrint ("Failed to send email to patient "
                              +:+ pretty (pk (patient p)) +:+ ": " +:+ exn_msg e)) w1)
             end)) ∧
     (∀ appointment_date appointment_time,
        absorbed p w
          (models.send_appointment_reminder E self appointment_date appointment_time w)
        ∨ handler_raised E self p
            (models.send_appointment_reminder E self appointment_date appointment_time w)) ∧
     (absorbed p w (models.send_welcome_email E self w)
      ∨ handler_raised E self p (models.send_welcome_email E self w)) ∧
     (∀ care_plan_details,
        absorbed p w (models.send_care_plan_update E self care_plan_details w)
        ∨ handler_raised E self p
            (models.send_care_plan_update E self care_plan_details w))) ∧
  (∀ patient,
     match model_extensions.get_email_profile E patient w with
     | (Raise e, w1) =>
         (∀ subject message html_message template_name context from_email,
            model_extensions.send_email E patient subject message html_message
              template_name context from_email w = (Raise e, w1)) ∧
         (∀ appointment_date appointment_time,
            model_extensions.send_appointment_reminder E patient appointment_date
              appointment_time w = (Raise e, w1)) ∧
         model_extensions.send_welcome_email E patient w = (Raise e, w1) ∧
         (∀ care_plan_details,
            model_extensions.send_care_plan_update E patient care_plan_details w
            = (Raise e, w1))
     | (Ok email_profile, w1) =>
         ∃ p, objs w1 !! email_profile = Some p ∧
         (∀ subject message html_message template_name context from_email,
            absorbed p w1
              (model_extensions.send_email E patient subject message html_message
                 template_name context from_email w)
            ∨ handler_raised E email_profile p
                (model_extensions.send_email E patient subject message html_message
                   template_name context from_email w)) ∧
         (∀ appointment_date appointment_time,
            absorbed p w1
              (model_extensions.send_appointment_reminder E patient appointment_date
                 appointment_time w)
            ∨ handler_raised E email_profile p
                (model_extensions.send_appointment_reminder E patient appointment_date
                   appointment_time w)) ∧
         (absorbed p w1 (model_extensions.send_welcome_email E patient w)
          ∨ handler_raised E email_profile p
              (model_extensions.send_welcome_email E patient w)) ∧
         (∀ care_plan_details,
            absorbed p w1
              (model_extensions.send_care_plan_update E patient care_plan_details w)
            ∨ handler_raised E email_profile p
                (model_extensions.send_care_plan_update E patient care_plan_details w))
     end).
Proof.
  split.
  - intros self p Hp. split_and!.
    + intros. split; [by apply send_email_absorbed|].
      intros e w1 Hg Hrun. by rewrite (send_email_open _ _ p), Hrun.
    + intros. by apply (absorbed_after_alloc E self p w _ Some).
    + by apply (absorbed_after_alloc E self p w _ Some).
    + intros. by apply (absorbed_after_alloc E self p w _ Some).
  - intros patient.
    destruct (model_extensions.get_email_profile E patient w) as [[l|e] w1] eqn:Hf.
    + pose proof Hf as (row & Hl & _)%get_email_profile_allocated.
      exists row. split_and!; [done|..]; intros;
        unfold model_extensions.send_email, model_extensions.send_appointment_reminder,
          model_extensions.send_welcome_email, model_extensions.send_care_plan_update;
        rewrite bind_run, Hf.
      * by apply send_email_absorbed.
      * by apply (absorbed_after_alloc E l row w1 _ Some).
      * by apply (absorbed_after_alloc E l row w1 _ Some).
      * by apply (absorbed_after_alloc E l row w1 _ Some).
    + split_and!; intros;
        unfold model_extensions.send_email, model_extensions.send_appointment_reminder,
          model_extensions.send_welcome_email, model_extensions.send_care_plan_update;
        by rewrite bind_run, Hf.
Qed.

(** C3 as it was stated fails for the methods of [Patient]: with a storage
    layer that rejects the query of [get_email_profile],
    [Patient.send_email] returns no boolean and prints no line; the
    exception of the fetch reaches the caller. *)
Lemma fetch_fault_reaches_the_caller :
  model_extensions.send_email sample.E_db_down sample.ana "Hi" (Some "Body") None None
    None None sample.fresh_world
  = (Raise (Exn "OperationalError" "server closed the connection"),
     record_event sample.E_db_down
       (EvGetOrCreate 7 (Raise (Exn "OperationalError" "server closed the connection")))
       sample.fresh_world).
Proof. by vm_compute. Qed.

(** C4, as amended. On a call of [send_email] that returns [True],
    [last_email_sent] is set to the time read after the transport
    returned, which is at or after the call's start, and the row of the
    patient is rewritten in that one column, no other row and no other
    column. On a call that returns [False] the table is unchanged; the
    instance in memory is unchanged as well, unless the transport took the
    message and saving raised, in which case the instance already carries
    the new time. *)
Theorem last_email_sent_effect (E : env) (self : loc) (p : PatientEmail) (w : world)
    (subject : string) (message html_message template_name : option string)
    (context : option loc) (from_email : option string) (b : bool) (w' : world) :
  objs w !! self = Some p →
  models.send_email E self subject message html_message template_name context from_email w
    = (Ok b, w') →
  (b = true →
     ∃ t row, now w ≤ t ∧ t ≤ now w' ∧
       objs w' = <[self := set_last_email_sent (Some t) p]> (objs w) ∧
       db w !! pk (patient p) = Some row ∧
       db w' = <[pk (patient p) := set_last_email_sent (Some t) row]> (db w)) ∧
  (b = false →
     db w' = db w ∧
     (objs w' = objs w
      ∨ ∃ t evs, trace w' = trace w ++ evs ∧ (∃ ev, ev ∈ evs ∧ accepted ev) ∧
          (∃ e, EvSave (pk (patient p)) ["last_email_sent"] (Raise e) ∈ evs) ∧
          objs w' = <[self := set_last_email_sent (Some t) p]> (objs w))).
Proof.
  intros Hp Hrun.
  apply (send_email_outcome _ _ p) in Hrun as (evs & Ht & Hnow & Hcases); [|done].
  destruct Hcases as [(-> & Ho & Hdb & _)|(t & Ht1 & Ht2 & Hacc & Ho & Hrest)].
  - split; [done|]. intros _. split; [done|]. by left.
  - destruct Hrest as [(-> & Hdb & Hsave)|(-> & row & Hrow & Hdb & _)].
    + split; [done|]. intros _. split; [done|]. right. by exists t, evs.
    + split; [|done]. intros _. by exists t, row.
Qed.

Lemma last_email_sent_effect_witness :
  let w := sample.world_of sample.profile in
  let w' := (models.send_email sample.E 1%positive "Hi" (Some "Body")
               None None None None w).2 in
  objs w !! 1%positive = Some sample.profile ∧
  models.send_email sample.E 1%positive "Hi" (Some "Body") None None None None w
    = (Ok true, w') ∧
  ∃ t row, now w ≤ t ∧ t ≤ now w' ∧
    objs w' = <[1%positive := set_last_email_sent (Some t) sample.profile]> (objs w) ∧
    db w !! pk (patient sample.profile) = Some row ∧
    db w' = <[pk (patient sample.profile) := set_last_email_sent (Some t) row]> (db w).
Proof.
  intros w w'.
  assert (objs w !! 1%positive = Some sample.profile) as Hp by reflexivity.
  assert (models.send_email sample.E 1%positive "Hi" (Some "Body") None None None None w
          = (Ok true, w')) as Hrun by (vm_compute; reflexivity).
  split; [exact Hp|]. split; [exact Hrun|].
  exact (proj1 (last_email_sent_effect sample.E 1%positive sample.profile w "Hi"
                  (Some "Body") None None None None true w' Hp Hrun) eq_refl).
Defined.

(** C4 as it was stated fails: with a transport that takes the message and
    a storage layer that rejects the write, the call returns [False] and
    the instance's [last_email_sent] is no longer what it was; and the
    message went out, yet no time stamp was saved. *)
Lemma last_email_sent_changed_on_false_return :
  ∃ w',
    models.send_email sample.E_save_down 1%positive "Hi" (Some "Body") None None None None
      (sample.world_of sample.profile) = (Ok false, w') ∧
    last_email_sent <$> objs w' !! 1%positive
      ≠ last_email_sent <$> objs (sample.world_of sample.profile) !! 1%positive ∧
    trace w' !! 0%nat
      = Some (EvSendMail (mkMail "Hi" "Body" None ["a@x.com"] None false) (Ok 1)) ∧
    db w' = db (sample.world_of sample.profile).
Proof.
  exists (models.send_email sample.E_save_down 1%positive "Hi" (Some "Body")
            None None None None (sample.world_of sample.profile)).2.
  split_and!; [vm_compute; reflexivity|vm_compute; discriminate|by vm_compute..].
Qed.




(** C6, as amended. The name of an [EmailTemplate] is normalised by the
    form: for a name that is not empty, [EmailTemplateForm.clean_name]
    hands on, as the name to save, the name it was given in lower case
    and with [_] for every space, so that name has no space; for a name of
    7-bit characters it has no capital either, as many characters as the
    input, and cleaning it again changes nothing. The input
    ["Welcome Email"] is cleaned to ["welcome_email"]. Lower case is what
    Python's [str.lower()] makes of the name, of which only its effect on
    7-bit strings is used. *)
Theorem template_name_normalized (str_lower : string → string) (name_input : string) :
  lowers_7bit str_lower →
  name_input ≠ "" →
  (∃ n, forms.clean_name str_lower (Some name_input) = Some n ∧
        n = forms.replace_char " " "_" (str_lower name_input) ∧
        all_chars (λ c, negb (Ascii.eqb c " ")) n = true) ∧
  (all_chars forms.is_7bit name_input = true →
   ∃ n, forms.clean_name str_lower (Some name_input) = Some n ∧
        n = forms.replace_char " " "_" (forms.lower name_input) ∧
        all_chars normal_char n = true ∧
        String.length n = String.length name_input ∧
        forms.clean_name str_lower (Some n) = Some n) ∧
  forms.clean_name str_lower (Some "Welcome Email") = Some "welcome_email".
Proof.
  intros Hl Hne. split_and!.
  - apply truthy_Some in Hne. unfold forms.clean_name. rewrite Hne.
    cbn [default from_option id]. eexists. split_and!; [done..|]. apply replace_no_space.
  - intros H7. rewrite clean_name_7bit by done. eexists. split_and!; [done..| | |].
    + apply normalized_all_normal.
    + apply normalized_length.
    + rewrite clean_name_7bit.
      * by rewrite normalized_fixed by apply normalized_all_normal.
      * done.
      * intros Hn. pose proof (normalized_length name_input) as Hlen.
        rewrite Hn in Hlen. by destruct name_input.
      * by apply replace_7bit, lower_7bit.
  - by rewrite clean_name_7bit.
Qed.

Lemma template_name_normalized_witness :
  lowers_7bit forms.lower ∧
  "Welcome Email" ≠ "" ∧
  forms.clean_name forms.lower (Some "Welcome Email") = Some "welcome_email".
Proof.
  assert (lowers_7bit forms.lower) as Hl by (by intros s _).
  assert ("Welcome Email" ≠ "") as Hne by discriminate.
  split_and!; [exact Hl|exact Hne|].
  exact (proj2 (proj2 (template_name_normalized forms.lower "Welcome Email" Hl Hne))).
Defined.

(** C6 as it was stated fails: the normalisation is the form's, and
    [EmailTemplate] has no [save] or [clean] of its own. A template saved
    without the form, as [EmailTemplate.objects.create] saves it, is stored
    under the name it was given: ["Welcome Email"], where the form would
    have handed on ["welcome_email"]. *)
Lemma template_saved_without_the_form_keeps_its_name :
  ∃ table,
    email_template.save (λ _, None) ∅ 1
      (mkEmailTemplate "Welcome Email" "Welcome" "<p>Hello</p>" "" true "")
    = Ok table ∧
    name <$> table !! 1 = Some "Welcome Email" ∧
    forms.clean_name forms.lower (Some "Welcome Email") = Some "welcome_email".
Proof.
  eexists. unfold email_template.save. rewrite decide_False.
  - split_and!; [done| |done]. by rewrite lookup_insert_eq.
  - by intros (k & t & Hk & _).
Qed.

(** C7, as amended. For a request of a caller holding the permission to
    send, with an action name that is none of [send_welcome],
    [send_appointment_reminder] and [verify_email] (or with none at all):
    when the patient exists in the caller's organization the endpoint
    returns the JSON object whose [success] is [False] and whose [message]
    is ["Unknown action"]; for any other patient id it raises [Http404].
    Either way it changes nothing and calls no collaborator, so it sends
    nothing. *)
Theorem unknown_action_response (E : env) (r : views.request) (patient_id : Z) (w : world) :
  views.has_perm r "patient_email_plugin.can_send_patient_emails" = true →
  views.POST r !! "action" ≠ Some "send_welcome" →
  views.POST r !! "action" ≠ Some "send_appointment_reminder" →
  views.POST r !! "action" ≠ Some "verify_email" →
  (∀ patient,
     patients w !! patient_id = Some patient →
     patient_organization patient = views.user_organization r →
     views.ajax_patient_email_quick_actions E r patient_id w
     = (Ok (views.JsonResponse [("success", views.JBool false);
                                ("message", views.JStr "Unknown action")]), w)) ∧
  ((∀ patient, patients w !! patient_id = Some patient →
               patient_organization patient ≠ views.user_organization r) →
   views.ajax_patient_email_quick_actions E r patient_id w
   = (Raise (Exn "Http404" "No Patient matches the given query."), w)).
Proof.
  intros Hperm H1%str_eq_false H2%str_eq_false H3%str_eq_false.
  unfold views.ajax_patient_email_quick_actions, views.get_object_or_404.
  rewrite Hperm. cbn [negb]. py_unfold. cbn. split.
  - intros patient -> ->%Z.eqb_eq. cbn. by rewrite H1, H2, H3.
  - intros Hnone. destruct (patients w !! patient_id) as [patient|]; [|done].
    specialize (Hnone patient eq_refl). apply Z.eqb_neq in Hnone. by rewrite Hnone.
Qed.

Lemma unknown_action_response_witness :
  views.has_perm sample.staff "patient_email_plugin.can_send_patient_emails" = true ∧
  views.POST sample.staff !! "action" ≠ Some "send_welcome" ∧
  views.POST sample.staff !! "action" ≠ Some "send_appointment_reminder" ∧
  views.POST sample.staff !! "action" ≠ Some "verify_email" ∧
  views.ajax_patient_email_quick_actions sample.E sample.staff 7
    (sample.world_of sample.profile)
  = (Ok (views.JsonResponse [("success", views.JBool false);
                             ("message", views.JStr "Unknown action")]),
     sample.world_of sample.profile).
Proof.
  assert (views.POST sample.staff !! "action" ≠ Some "send_welcome") as H1
    by (vm_compute; discriminate).
  assert (views.POST sample.staff !! "action" ≠ Some "send_appointment_reminder") as H2
    by (vm_compute; discriminate).
  assert (views.POST sample.staff !! "action" ≠ Some "verify_email") as H3
    by (vm_compute; discriminate).
  split_and!; [reflexivity|exact H1|exact H2|exact H3|].
  exact (proj1 (unknown_action_response sample.E sample.staff 7
                  (sample.world_of sample.profile) eq_refl H1 H2 H3)
           sample.ana eq_refl eq_refl).
Defined.

(** C7 as it was stated fails: the caller holds the permission, the action
    is unknown, and the endpoint returns no JSON object at all, since no
    patient has the id of the request. *)
Lemma unknown_patient_raises_404 :
  views.has_perm sample.staff "patient_email_plugin.can_send_patient_emails" = true ∧
  views.POST sample.staff !! "action" = Some "unknown_action" ∧
  views.ajax_patient_email_quick_actions sample.E sample.staff 99
    (sample.world_of sample.profile)
  = (Raise (Exn "Http404" "No Patient matches the given query."),
     sample.world_of sample.profile).
Proof. split_and!; [reflexivity|by vm_compute|by vm_compute]. Qed.

(** C8. Fetching the email profile of a patient is idempotent. A fetch the
    storage layer answers returns the patient's row: the stored one if
    there was one, and the table is unchanged; otherwise a new row bound to
    the patient and to the patient's organization, with the default
    settings (no address, not verified, notifications enabled, the primary
    address preferred, not bounced, never sent to), which is added under
    the patient's key while every other row stays. Every later fetch, in
    any world where that row is still the patient's, returns the same row
    and leaves the table as it is. The table holds profiles by patient
    key, so it never holds two for one patient. *)
Theorem get_email_profile_idempotent (E : env) (patient : Patient) (w : world) :
  fetch_fault E patient w = None →
  ∃ email_profile w1 row,
    model_extensions.get_email_profile E patient w = (Ok email_profile, w1) ∧
    objs w1 !! email_profile = Some row ∧
    db w1 !! pk patient = Some row ∧
    (db w !! pk patient = None →
       row = mkPatientEmail patient (patient_organization patient) None None false true
               "primary" false None ∧
       db w1 = <[pk patient := row]> (db w)) ∧
    (∀ row0, db w !! pk patient = Some row0 → row = row0 ∧ db w1 = db w) ∧
    (∀ k, k ≠ pk patient → db w1 !! k = db w !! k) ∧
    (∀ w2, db w2 !! pk patient = Some row → fetch_fault E patient w2 = None →
       ∃ email_profile2 w3,
         model_extensions.get_email_profile E patient w2 = (Ok email_profile2, w3) ∧
         objs w3 !! email_profile2 = Some row ∧
         db w3 = db w2).
Proof.
  intros Hok.
  assert (∀ w2 row, db w2 !! pk patient = Some row → fetch_fault E patient w2 = None →
            ∃ l2 w3, model_extensions.get_email_profile E patient w2 = (Ok l2, w3) ∧
                     objs w3 !! l2 = Some row ∧ db w3 = db w2) as Hagain.
  { intros w2 row Hrow Hok2. rewrite get_email_profile_eq. cbn. rewrite Hok2, Hrow.
    do 2 eexists. split; [done|]. cbn. by rewrite lookup_insert_eq. }
  rewrite get_email_profile_eq. cbn. rewrite Hok.
  destruct (db w !! pk patient) as [row0|] eqn:Hrow.
  - exists (fresh (dom (objs w))), (set_objs (insert (fresh (dom (objs w))) row0)
             (record_event E (EvGetOrCreate (pk patient) (Ok false)) w)), row0.
    cbn. split_and!; [done|by rewrite lookup_insert_eq|done|done| |done|intros w2; apply Hagain].
    by intros ? [= <-].
  - set (row := new_profile patient (patient_organization patient)).
    exists (fresh (dom (objs w))), (set_objs (insert (fresh (dom (objs w))) row)
             (record_event E (EvGetOrCreate (pk patient) (Ok true))
                (set_db (insert (pk patient) row) w))), row.
    cbn. split_and!; [done|by rewrite lookup_insert_eq|by rewrite lookup_insert_eq|done|
                      done| |intros w2; apply Hagain].
    intros k Hk. by rewrite lookup_insert_ne.
Qed.

Lemma get_email_profile_idempotent_witness :
  fetch_fault sample.E sample.ana sample.fresh_world = None ∧
  ∃ email_profile w1 row,
    model_extensions.get_email_profile sample.E sample.ana sample.fresh_world
      = (Ok email_profile, w1) ∧
    db w1 !! 7 = Some row ∧
    row = mkPatientEmail sample.ana 3 None None false true "primary" false None ∧
    ∃ email_profile2 w3,
      model_extensions.get_email_profile sample.E sample.ana w1 = (Ok email_profile2, w3) ∧
      objs w3 !! email_profile2 = Some row ∧
      db w3 = db w1.
Proof.
  split; [reflexivity|].
  destruct (get_email_profile_idempotent sample.E sample.ana sample.fresh_world eq_refl)
    as (l & w1 & row & Hrun & _ & Hrow & Hnew & _ & _ & Hagain).
  exists l, w1, row. split_and!; [exact Hrun|exact Hrow|exact (proj1 (Hnew eq_refl))|].
  exact (Hagain w1 Hrow eq_refl).
Defined.

(** What the outcome of one call of [send_email] tells. A [True] return
    implies that the transport took the message and that the time stamp
    was saved. On a call in which the transport takes the message and
    saving raises, the message has been sent and the table is unchanged;
    the call returns [False], after printing the line, when the handler's
    own read of [self.patient.pk] and its [print] return, and otherwise
    raises what one of these two raised. *)
Lemma send_email_return_meaning (E : env) (self : loc) (p : PatientEmail) (w : world)
    (subject : string) (message html_message template_name : option string)
    (context : option loc) (from_email : option string) (r : result bool) (w' : world) :
  objs w !! self = Some p →
  models.send_email E self subject message html_message template_name context
    from_email w = (r, w') →
  ∃ evs,
    trace w' = trace w ++ evs ∧
    (r = Ok true →
       ∃ t row,
         (∃ ev, ev ∈ evs ∧ accepted ev) ∧
         EvSave (pk (patient p)) ["last_email_sent"] (Ok tt) ∈ evs ∧
         db w !! pk (patient p) = Some row ∧
         db w' !! pk (patient p) = Some (set_last_email_sent (Some t) row)) ∧
    (∀ e,
       (∃ ev, ev ∈ evs ∧ accepted ev) →
       EvSave (pk (patient p)) ["last_email_sent"] (Raise e) ∈ evs →
       db w' = db w ∧
       ((r = Ok false ∧
         last evs = Some (EvPrint ("Failed to send email to patient "
                                   +:+ pretty (pk (patient p)) +:+ ": " +:+ exn_msg e)))
        ∨ ∃ e', r = Raise e' ∧ handler_fault E self p e w' = Some e')).
Proof.
  intros Hp Hrun.
  pose proof Hrun as (evs_r & tail & Ht & Hr & Hcases)%(send_email_events _ _ p); [|done].
  exists (evs_r ++ tail). split; [done|]. split.
  - intros ->.
    apply (send_email_outcome _ _ p) in Hrun as (evs & Ht' & Hnow & Hc); [|done].
    rewrite Ht in Ht'. apply app_inv_head in Ht' as <-.
    destruct Hc as [(? & _)|(t & _ & _ & Hacc & _ & Hrest)]; [done|].
    destruct Hrest as [(? & _)|(_ & row & Hrow & Hdb & Hsave)]; [done|].
    exists t, row. split_and!; [done..|]. by rewrite Hdb, lookup_insert_eq.
  - intros e (ev & Hin & m0 & n0 & -> & Hn0) Hsave.
    assert (EvSendMail m0 (Ok n0) ∈ tail) as Hmail.
    { apply elem_of_app in Hin as [Hin|Hin]; [|done].
      by destruct (Hr _ Hin) as (? & _). }
    assert (EvSave (pk (patient p)) ["last_email_sent"] (Raise e) ∈ tail) as Hsave'.
    { apply elem_of_app in Hsave as [Hin'|Hin']; [|done].
      by destruct (Hr _ Hin') as (_ & _ & ? & ? & ? & ?). }
    clear Hin Hsave.
    destruct Hcases as [(_ & _ & -> & _)|(_ & [(e0 & Hh & _)|(m & o & _ & _ & _ & _ & Hc)])].
    + by apply elem_of_nil in Hmail.
    + destruct Hh as [(_ & ->)|(e' & _ & -> & _)]; by elems.
    + destruct Hc as [(e0 & hevs & -> & -> & Hh & _)|[(-> & -> & _)|
                      [(n & e0 & hevs & -> & Hn & -> & Hh & Hdb)|(n & -> & _ & -> & _)]]].
      * destruct Hh as [(_ & ->)|(e' & _ & -> & _)]; by elems.
      * elems. done.
      * split; [done|].
        assert (e0 = e) as ->.
        { destruct Hh as [(_ & ->)|(e' & _ & -> & _)]; elems; congruence. }
        destruct Hh as [(-> & ->)|(e' & -> & -> & Hf)].
        -- left. split; [done|].
           by rewrite last_app.
        -- right. by exists e'.
      * by elems.
Qed.

(** C9. The claim holds of a [True] return, and the code breaks its last
    part. The instance came from a query, so its patient is not loaded;
    the transport takes the message; then the storage layer is gone:
    saving the time stamp raises inside the [try] block, the handler
    catches that, and its own read of [self.patient.pk], made to print the
    line, raises. The call does not return [False]: the exception reaches
    the caller, after the message went out and with nothing saved, where
    the docstring of [send_email] promises a boolean. *)
Theorem sent_and_not_saved_may_raise :
  ∃ w',
    models.send_email sample.E_storage_gone 1%positive "Reminder" None
      (Some "<p>Tomorrow</p>") None None (Some "clinic@x.com")
      (sample.world_of sample.profile)
    = (Raise (Exn "OperationalError" "server closed the connection"), w') ∧
    trace w'
    = [EvSendMail (mkMail "Reminder" "" (Some "clinic@x.com") ["a@x.com"]
                     (Some "<p>Tomorrow</p>") false) (Ok 1);
       EvSave 7 ["last_email_sent"]
         (Raise (Exn "OperationalError" "server closed the connection"))] ∧
    db w' = db (sample.world_of sample.profile).
Proof.
  exists (models.send_email sample.E_storage_gone 1%positive "Reminder" None
            (Some "<p>Tomorrow</p>") None None (Some "clinic@x.com")
            (sample.world_of sample.profile)).2.
  by vm_compute.
Qed.

(** With a storage layer that rejects the write and answers the read, the
    same call returns [False] although the message went out. *)
Example scenario_sent_and_not_saved :
  let out := models.send_email sample.E_save_down 1%positive "Hi" (Some "Body") None None
               None None (sample.world_of sample.profile) in
  out.1 = Ok false ∧
  trace out.2
  = [EvSendMail (mkMail "Hi" "Body" None ["a@x.com"] None false) (Ok 1);
     EvSave 7 ["last_email_sent"]
       (Raise (Exn "OperationalError" "server closed the connection"));
     EvPrint "Failed to send email to patient 7: server closed the connection"].
Proof. by vm_compute. Qed.




(** ** The scenarios of the specification, run *)

(** A profile with [email="a@x.com"], primary preferred, notifications
    enabled, not bounced: [send_email(subject="Hi", message="Body")]
    returns [True], and the transport is called once, with that address as
    the only recipient. *)
Example scenario_send_succeeds :
  let out := models.send_email sample.E 1%positive "Hi" (Some "Body") None None None None
               (sample.world_of sample.profile) in
  out.1 = Ok true ∧
  trace out.2 = [EvSendMail (mkMail "Hi" "Body" None ["a@x.com"] None false) (Ok 1);
                 EvSave 7 ["last_email_sent"] (Ok tt)] ∧
  last_email_sent <$> db out.2 !! 7 = Some (Some 101).
Proof. by vm_compute. Qed.

(** The same profile with the bounce flag set: [False], and the transport
    is not called. *)
Example scenario_bounced :
  let out := models.send_email sample.E 1%positive "Hi" (Some "Body") None None None None
               (sample.world_of sample.bounced) in
  out.1 = Ok false ∧ trace out.2 = [].
Proof. by vm_compute. Qed.

(** A template, a context and no message: the plain text is the rendered
    HTML without its tags. *)
Example scenario_template :
  let out := models.send_email sample.E 1%positive "Hi" None None (Some "welcome.html")
               (Some 1%positive) None (sample.world_of sample.profile) in
  out.1 = Ok true ∧
  trace out.2 !! 1%nat
    = Some (EvSendMail (mkMail "Hi" "Hello" None ["a@x.com"] (Some "<p>Hello</p>") false)
              (Ok 1)).
Proof. by vm_compute. Qed.

(** A template that does not exist: [False], and a line that names
    patient 7. *)
Example scenario_missing_template :
  let out := models.send_email sample.E_no_template 1%positive "Hi" None None
               (Some "welcome.html") (Some 1%positive) None
               (sample.world_of sample.profile) in
  out.1 = Ok false ∧
  last (trace out.2) = Some (EvPrint "Failed to send email to patient 7: welcome.html").
Proof. by vm_compute. Qed.

(** [Patient.send_email] for a patient without a profile: the profile is
    created with the defaults, then the gate stops the call, as the new
    profile has no address. *)
Example scenario_first_send :
  let out := model_extensions.send_email sample.E sample.ana "Hi" (Some "Body") None None
               None None sample.fresh_world in
  out.1 = Ok false ∧
  db out.2 !! 7 = Some (new_profile sample.ana 3) ∧
  trace out.2 = [EvGetOrCreate 7 (Ok true)].
Proof. by vm_compute. Qed.

(** * More of the code *)

(** X1. [get_preferred_email()] yields an address exactly when one of the
    two addresses is set, whatever the preference says, and what it yields
    is always one of the two stored values. *)
Theorem preferred_email_is_a_stored_address (p : PatientEmail) :
  truthy (get_preferred_email p) = truthy (email p) || truthy (secondary_email p) ∧
  (get_preferred_email p = email p ∨ get_preferred_email p = secondary_email p).
Proof.
  unfold get_preferred_email, py_or.
  destruct (String.eqb (preferred_email p) "secondary"),
    (truthy (secondary_email p)) eqn:Hs, (truthy (email p)) eqn:He; cbn;
    rewrite ?Hs, ?He; auto.
Qed.

(** X2. A call of [send_email] that passes the gate without a template to
    render (no template name, an empty one, or a template name without a
    context) calls the transport once, with the subject, the sender and the
    HTML body it was given, the message or [""], and the preferred address
    as the only recipient; it renders nothing and leaves every dictionary
    as it was. *)
Theorem plain_call_sends_as_given (E : env) (self : loc) (p : PatientEmail) (w : world)
    (subject : string) (message html_message template_name : option string)
    (context : option loc) (from_email : option string) (r : result bool) (w' : world) :
  objs w !! self = Some p →
  passes_gate p = true →
  (if truthy template_name then context else None) = None →
  models.send_email E self subject message html_message template_name context from_email w
    = (r, w') →
  ∃ tail,
    trace w' = trace w ++
      EvSendMail (mkMail subject (or_empty message) from_email
                    [default "" (get_preferred_email p)] html_message false)
        (send_mail E (mkMail subject (or_empty message) from_email
                        [default "" (get_preferred_email p)] html_message false) w)
      :: tail ∧
    (∀ ev, ev ∈ tail →
       (∃ pk fields o, ev = EvSave pk fields o) ∨ (∃ line, ev = EvPrint line)) ∧
    dicts w' = dicts w.
Proof.
  intros Hp Hg Hplain.
  rewrite (send_email_open _ _ p), try_block_eq, render_content_plain by done.
  destruct (models.deliver _ _ _ _ _ _ _ w) as [r2 w2] eqn:Hd.
  rewrite (deliver_eq _ _ p) in Hd by done. cbn in Hd.
  destruct (send_mail E _ w) as [n|e] eqn:Hm.
  - destruct (n =? 0) eqn:Hn.
    { simplify_eq. intros ?; simplify_eq. exists []. cbn.
      split_and!; [done|by intros ? ?%elem_of_nil|done]. }
    destruct (save_fault E _ _) as [e|] eqn:Hs; [|destruct (db w !! _) as [row|] eqn:Hrow];
      simplify_eq; [destruct (handler_fault E self p e _)| |destruct (handler_fault E self p _ _)];
      intros ?; simplify_eq; cbn;
      [eexists [_]|eexists [_; _]|eexists [_]|eexists [_]|eexists [_; _]];
      (split_and!; [by rewrite <-?app_assoc| |done]);
      intros ev Hin; elems; first [by left; do 3 eexists|by right; eexists].
  - simplify_eq. destruct (handler_fault E self p e _); intros ?; simplify_eq; cbn;
      [exists []|eexists [_]];
      (split_and!; [by rewrite <-?app_assoc| |done]);
      intros ev Hin; elems; first [by left; do 3 eexists|by right; eexists].
Qed.

Lemma plain_call_sends_as_given_witness :
  objs (sample.world_of sample.profile) !! 1%positive = Some sample.profile ∧
  passes_gate sample.profile = true ∧
  (if truthy (Some "welcome.html") then None else None) = (None : option loc) ∧
  ∃ tail,
    trace (models.send_email sample.E 1%positive "Hi" None None (Some "welcome.html")
             None None (sample.world_of sample.profile)).2
    = trace (sample.world_of sample.profile) ++
        EvSendMail (mkMail "Hi" (or_empty None) None
                      [default "" (get_preferred_email sample.profile)] None false)
          (send_mail sample.E
             (mkMail "Hi" (or_empty None) None
                [default "" (get_preferred_email sample.profile)] None false)
             (sample.world_of sample.profile))
        :: tail.
Proof.
  split_and!; [reflexivity..|].
  destruct (plain_call_sends_as_given sample.E 1%positive sample.profile
              (sample.world_of sample.profile) "Hi" None None (Some "welcome.html")
              None None _ _ eq_refl eq_refl eq_refl (surjective_pairing _))
    as (tail & Ht & _).
  exists tail. exact Ht.
Defined.

Lemma filter_send_mail_nil (evs : list event) :
  (∀ ev, ev ∈ evs → is_send_mail ev = false ∧ is_print ev = false) →
  filter (λ ev, is_send_mail ev = true) evs = [].
Proof.
  induction evs as [|ev evs IH]; [done|]. intros H.
  rewrite filter_cons_False.
  - apply IH. intros ev' Hin. apply H. by right.
  - destruct (H ev) as [Hs _]; [by left|]. by rewrite Hs.
Qed.

Ltac filter_events :=
  repeat first [rewrite filter_cons_True by reflexivity
               |rewrite filter_cons_False by (cbn; discriminate)];
  rewrite ?filter_nil.

(** X3. One call of [send_email] calls the transport at most once, and
    only for a profile that passes the gate; the message it hands over
    carries the subject and the sender of the call, the preferred address
    as its only recipient, and [fail_silently=False]. *)
Theorem one_mail_to_the_preferred_address (E : env) (self : loc) (p : PatientEmail)
    (w : world) (subject : string) (message html_message template_name : option string)
    (context : option loc) (from_email : option string) (r : result bool) (w' : world) :
  objs w !! self = Some p →
  models.send_email E self subject message html_message template_name context from_email w
    = (r, w') →
  ∃ evs,
    trace w' = trace w ++ evs ∧
    (length (filter (λ ev, is_send_mail ev = true) evs) ≤ 1)%nat ∧
    ∀ m o, EvSendMail m o ∈ evs →
      passes_gate p = true ∧ mail_subject m = subject ∧ mail_from_email m = from_email ∧
      mail_recipient_list m = [default "" (get_preferred_email p)] ∧
      mail_fail_silently m = false.
Proof.
  intros Hp Hrun.
  apply (send_email_events _ _ p) in Hrun as (evs_r & tail & Ht & Hr & Hcases); [|done].
  exists (evs_r ++ tail). split; [done|].
  rewrite filter_app, (filter_send_mail_nil evs_r)
    by (intros ev Hev; by destruct (Hr ev Hev) as (? & ? & _)).
  cbn [app].
  assert (∀ m o, EvSendMail m o ∈ evs_r ++ tail → EvSendMail m o ∈ tail) as Htail.
  { intros m o [Hin|Hin]%elem_of_app; [|done]. by destruct (Hr _ Hin) as (? & _). }
  destruct Hcases as [(_ & _ & -> & _)|(Hg & [(e & Hh & _)|(m & o & Hs & Hf & Hto & Hfs & Hc)])].
  - split; [cbn; lia|]. intros m o Hin%Htail. by apply elem_of_nil in Hin.
  - destruct Hh as [(_ & ->)|(e' & _ & -> & _)];
      (split; [filter_events; cbn; lia|]); intros m o Hin%Htail; by elems.
  - assert (∀ m' o', EvSendMail m' o' ∈ tail → m' = m) as Hm.
    { destruct Hc as [(e & hevs & -> & -> & Hh & _)|[(-> & -> & _)|
                      [(n & e & hevs & -> & _ & -> & Hh & _)|(n & -> & _ & -> & _)]]];
        try (destruct Hh as [(_ & ->)|(e' & _ & -> & _)]);
        intros m' o' Hin; elems; congruence. }
    split.
    + destruct Hc as [(e & hevs & -> & -> & Hh & _)|[(-> & -> & _)|
                      [(n & e & hevs & -> & _ & -> & Hh & _)|(n & -> & _ & -> & _)]]];
        try (destruct Hh as [(_ & ->)|(e' & _ & -> & _)]); filter_events; cbn; lia.
    + intros m' o' Hin%Htail. apply Hm in Hin as ->. done.
Qed.

Lemma one_mail_to_the_preferred_address_witness :
  objs (sample.world_of sample.profile) !! 1%positive = Some sample.profile ∧
  ∃ evs,
    trace (models.send_email sample.E 1%positive "Hi" (Some "Body") None None None None
             (sample.world_of sample.profile)).2
    = trace (sample.world_of sample.profile) ++ evs ∧
    (length (filter (λ ev, is_send_mail ev = true) evs) ≤ 1)%nat.
Proof.
  split; [reflexivity|].
  destruct (one_mail_to_the_preferred_address sample.E 1%positive sample.profile
              (sample.world_of sample.profile) "Hi" (Some "Body") None None None None
              _ _ eq_refl (surjective_pairing _))
    as (evs & Ht & Hlen & _).
  exists evs. split; [exact Ht|exact Hlen].
Defined.

(** X4. When the transport returns without having taken the message (a
    count of zero), [send_email] returns [False] and does nothing else: no
    line is printed, and neither the instance nor the table changes. *)
Theorem refused_delivery_is_silent (E : env) (self : loc) (p : PatientEmail)
    (w : world) (subject : string) (message html_message template_name : option string)
    (context : option loc) (from_email : option string) (r : result bool) (w' : world) :
  objs w !! self = Some p →
  models.send_email E self subject message html_message template_name context from_email w
    = (r, w') →
  ∃ evs,
    trace w' = trace w ++ evs ∧
    ∀ m, EvSendMail m (Ok 0) ∈ evs →
      r = Ok false ∧ (∀ ev, ev ∈ evs → is_print ev = false) ∧
      last evs = Some (EvSendMail m (Ok 0)) ∧
      objs w' = objs w ∧ db w' = db w.
Proof.
  intros Hp Hrun.
  apply (send_email_events _ _ p) in Hrun as (evs_r & tail & Ht & Hr & Hcases); [|done].
  exists (evs_r ++ tail). split; [done|]. intros m0 Hin.
  apply elem_of_app in Hin as [Hin|Hin]; [by destruct (Hr _ Hin) as (? & _)|].
  destruct Hcases as [(_ & _ & -> & _)|(Hg & [(e & Hh & _)|(m & o & _ & _ & _ & _ & Hc)])].
  - by apply elem_of_nil in Hin.
  - destruct Hh as [(_ & ->)|(e' & _ & -> & _)]; by elems.
  - destruct Hc as [(e & hevs & -> & -> & Hh & _)|[(-> & -> & -> & Ho & Hdb)|
                    [(n & e & hevs & -> & Hn & -> & Hh & _)|(n & -> & Hn & -> & _)]]];
      try (destruct Hh as [(_ & ->)|(e' & _ & -> & _)]); elems; simplify_eq.
    split_and!; [done| |by rewrite last_snoc|done..].
    intros ev [Hev|Hev]%elem_of_app; [by destruct (Hr _ Hev) as (_ & ? & _)|]. by elems.
Qed.

Lemma refused_delivery_is_silent_witness :
  objs (sample.world_of sample.profile) !! 1%positive = Some sample.profile ∧
  ∃ evs,
    trace (models.send_email more_samples.E_refuses 1%positive "Hi" (Some "Body") None None
             None None (sample.world_of sample.profile)).2
    = trace (sample.world_of sample.profile) ++ evs ∧
    ∀ m, EvSendMail m (Ok 0) ∈ evs →
      (models.send_email more_samples.E_refuses 1%positive "Hi" (Some "Body") None None
         None None (sample.world_of sample.profile)).1 = Ok false.
Proof.
  split; [reflexivity|].
  destruct (refused_delivery_is_silent more_samples.E_refuses 1%positive sample.profile
              (sample.world_of sample.profile) "Hi" (Some "Body") None None None None
              _ _ eq_refl (surjective_pairing _))
    as (evs & Ht & H).
  exists evs. split; [exact Ht|]. intros m Hin. exact (proj1 (H m Hin)).
Defined.

(** The transport of [E_refuses] is asked, and nothing else happens. *)
Example scenario_refused :
  let out := models.send_email more_samples.E_refuses 1%positive "Hi" (Some "Body") None
               None None None (sample.world_of sample.profile) in
  out.1 = Ok false ∧
  trace out.2 = [EvSendMail (mkMail "Hi" "Body" None ["a@x.com"] None false) (Ok 0)] ∧
  db out.2 = db (sample.world_of sample.profile).
Proof. by vm_compute. Qed.

(** ** The derived operations *)





(** The welcome mail of the samples. *)
Example scenario_welcome :
  let out := models.send_welcome_email sample.E 1%positive
               (sample.world_of sample.profile) in
  out.1 = Ok true ∧
  trace out.2 !! 1%nat
    = Some (EvSendMail
              (mkMail "Welcome to our healthcare system" "Hello" None ["a@x.com"]
                 (Some "<p>Hello</p>") false) (Ok 1)).
Proof. by vm_compute. Qed.

(** ** [has_email] and [get_email] *)

Lemma email_profile_eq E self w :
  patient_methods.email_profile E self w =
    match fetch_fault E self w with
    | Some e => (Raise e, w)
    | None =>
        match db w !! pk self with
        | Some row => (Ok row, w)
        | None => (Raise (Exn "RelatedObjectDoesNotExist" "Patient has no email_profile."), w)
        end
    end.
Proof.
  unfold patient_methods.email_profile. py_unfold. cbn.
  destruct (fetch_fault E self w); [done|]. by destruct (db w !! pk self).
Qed.

Lemma has_email_eq E self w :
  patient_methods.has_email E self w =
    match patient_methods.email_profile E self w with
    | (Ok row, _) => (Ok (truthy (get_preferred_email row)), w)
    | (Raise _, _) => (Ok false, w)
    end.
Proof.
  unfold patient_methods.has_email, try_except. rewrite bind_run, email_profile_eq.
  destruct (fetch_fault E self w); [done|]. by destruct (db w !! pk self).
Qed.

Lemma get_email_eq E self w :
  patient_methods.get_email E self w =
    match patient_methods.email_profile E self w with
    | (Ok row, _) => (Ok (get_preferred_email row), w)
    | (Raise _, _) => (Ok None, w)
    end.
Proof.
  unfold patient_methods.get_email, try_except. rewrite bind_run, email_profile_eq.
  destruct (fetch_fault E self w); [done|]. by destruct (db w !! pk self).
Qed.

(** X6. [Patient.has_email()] raises nothing and changes nothing; in
    particular it creates no profile. It answers [True] exactly when the
    storage layer answers, the patient has a profile and that profile has a
    preferred address. *)
Theorem has_email_only_reads (E : env) (self : Patient) (w : world) :
  ∃ b,
    patient_methods.has_email E self w = (Ok b, w) ∧
    (b = true ↔
     fetch_fault E self w = None ∧
     ∃ row, db w !! pk self = Some row ∧ truthy (get_preferred_email row) = true).
Proof.
  rewrite has_email_eq, email_profile_eq.
  destruct (fetch_fault E self w) as [e|] eqn:Hf.
  { exists false. split; [done|]. split; [done|]. by intros [? _]. }
  destruct (db w !! pk self) as [row|] eqn:Hrow.
  - exists (truthy (get_preferred_email row)). split; [done|]. split.
    + intros Ht. split; [done|]. by exists row.
    + by intros (_ & row' & [= <-] & Ht).
  - exists false. split; [done|]. split; [done|]. by intros (_ & row' & ? & _).
Qed.

(** X7. [Patient.get_email()] raises nothing and changes nothing; it
    returns [None] when the storage layer fails or the patient has no
    profile, and the profile's preferred address otherwise. What
    [has_email()] answers is the truth value of what [get_email()] returns. *)
Theorem get_email_agrees_with_has_email (E : env) (self : Patient) (w : world) :
  ∃ a,
    patient_methods.get_email E self w = (Ok a, w) ∧
    patient_methods.has_email E self w = (Ok (truthy a), w) ∧
    (fetch_fault E self w ≠ None ∨ db w !! pk self = None → a = None) ∧
    (∀ row, fetch_fault E self w = None → db w !! pk self = Some row →
            a = get_preferred_email row).
Proof.
  rewrite has_email_eq, get_email_eq, email_profile_eq.
  destruct (fetch_fault E self w) as [e|] eqn:Hf.
  { exists None. split_and!; [done..|]. by intros row ?. }
  destruct (db w !! pk self) as [row|] eqn:Hrow.
  - exists (get_preferred_email row). split_and!; [done..| |].
    + by intros [?|?].
    + by intros row' _ [= <-].
  - exists None. split_and!; [done..|]. by intros row ? ?.
Qed.

(** What the methods of [Patient] that send do for a patient the gate
    stops: the profile is fetched or created, and that is all. *)
Lemma wrappers_closed E self w :
  fetch_fault E self w = None →
  (∀ row, db w !! pk self = Some row → passes_gate row = false) →
  ∃ created,
    (∀ subject message html tpl ctx from,
       ∃ w', model_extensions.send_email E self subject message html tpl ctx from w
               = (Ok false, w') ∧
             trace w' = trace w ++ [EvGetOrCreate (pk self) (Ok created)]) ∧
    (∀ date time,
       ∃ w', model_extensions.send_appointment_reminder E self date time w = (Ok false, w') ∧
             trace w' = trace w ++ [EvGetOrCreate (pk self) (Ok created)]) ∧
    (∃ w', model_extensions.send_welcome_email E self w = (Ok false, w') ∧
           trace w' = trace w ++ [EvGetOrCreate (pk self) (Ok created)]) ∧
    (∀ details,
       ∃ w', model_extensions.send_care_plan_update E self details w = (Ok false, w') ∧
             trace w' = trace w ++ [EvGetOrCreate (pk self) (Ok created)]).
Proof.
  intros Hf Hgate.
  assert (∃ created l w1 row,
            model_extensions.get_email_profile E self w = (Ok l, w1) ∧
            objs w1 !! l = Some row ∧ passes_gate row = false ∧
            trace w1 = trace w ++ [EvGetOrCreate (pk self) (Ok created)])
    as (created & l & w1 & row & Hrun & Hl & Hg & Ht).
  { rewrite get_email_profile_eq. cbn. rewrite Hf.
    destruct (db w !! pk self) as [row|] eqn:Hrow.
    - exists false. do 3 eexists. split; [done|]. cbn. rewrite lookup_insert_eq.
      split_and!; [done|by apply Hgate|done].
    - exists true. do 3 eexists. split; [done|]. cbn. rewrite lookup_insert_eq.
      split_and!; [done..]. }
  exists created.
  unfold model_extensions.send_email, model_extensions.send_appointment_reminder,
    model_extensions.send_welcome_email, model_extensions.send_care_plan_update,
    models.send_appointment_reminder, models.send_welcome_email,
    models.send_care_plan_update.
  split_and!; intros; rewrite bind_run, Hrun.
  - rewrite (send_email_closed _ _ row) by done. eauto.
  - rewrite bind_run. unfold alloc_dict, get_world, modify, ret, mbind, M_bind, bind. cbn.
    rewrite (send_email_closed _ _ row) by done. eauto.
  - rewrite bind_run. unfold alloc_dict, get_world, modify, ret, mbind, M_bind, bind. cbn.
    rewrite (send_email_closed _ _ row) by done. eauto.
  - rewrite bind_run. unfold alloc_dict, get_world, modify, ret, mbind, M_bind, bind. cbn.
    rewrite (send_email_closed _ _ row) by done. eauto.
Qed.

(** X8. When [Patient.has_email()] answers [False] although the storage
    layer answers, each of [Patient.send_email],
    [Patient.send_appointment_reminder], [Patient.send_welcome_email] and
    [Patient.send_care_plan_update] returns [False]; all it does is to
    fetch the profile, creating it when there was none: nothing is
    rendered, the transport is not called and no line is printed. *)
Theorem no_email_no_send (E : env) (self : Patient) (w : world) :
  fetch_fault E self w = None →
  patient_methods.has_email E self w = (Ok false, w) →
  ∃ created,
    (created = true ↔ db w !! pk self = None) ∧
    (∀ subject message html_message template_name context from_email,
       ∃ w', model_extensions.send_email E self subject message html_message
               template_name context from_email w = (Ok false, w') ∧
             trace w' = trace w ++ [EvGetOrCreate (pk self) (Ok created)]) ∧
    (∀ appointment_date appointment_time,
       ∃ w', model_extensions.send_appointment_reminder E self appointment_date
               appointment_time w = (Ok false, w') ∧
             trace w' = trace w ++ [EvGetOrCreate (pk self) (Ok created)]) ∧
    (∃ w', model_extensions.send_welcome_email E self w = (Ok false, w') ∧
           trace w' = trace w ++ [EvGetOrCreate (pk self) (Ok created)]) ∧
    (∀ care_plan_details,
       ∃ w', model_extensions.send_care_plan_update E self care_plan_details w
               = (Ok false, w') ∧
             trace w' = trace w ++ [EvGetOrCreate (pk self) (Ok created)]).
Proof.
  intros Hf Hhas.
  assert (∀ row, db w !! pk self = Some row → passes_gate row = false) as Hgate.
  { intros row Hrow. rewrite has_email_eq, email_profile_eq, Hf, Hrow in Hhas.
    apply passes_gate_false. right. right. congruence. }
  destruct (wrappers_closed E self w Hf Hgate) as (created & H1 & H2 & H3 & H4).
  exists created. split; [|done].
  destruct (H3) as (w' & Hrun & Ht).
  unfold model_extensions.send_welcome_email in Hrun.
  rewrite bind_run, get_email_profile_eq in Hrun. cbn in Hrun. rewrite Hf in Hrun.
  destruct (db w !! pk self) as [row|] eqn:Hrow.
  - unfold models.send_welcome_email in Hrun. rewrite bind_run in Hrun.
    unfold alloc_dict, get_world, modify, ret, mbind, M_bind, bind in Hrun. cbn in Hrun.
    rewrite (send_email_closed _ _ row) in Hrun;
      [|by cbn; rewrite lookup_insert_eq|by apply Hgate].
    simplify_eq. cbn in Ht. apply app_inv_head in Ht. simplify_eq. done.
  - unfold models.send_welcome_email in Hrun. rewrite bind_run in Hrun.
    unfold alloc_dict, get_world, modify, ret, mbind, M_bind, bind in Hrun. cbn in Hrun.
    rewrite (send_email_closed _ _ (new_profile self (patient_organization self))) in Hrun;
      [|by cbn; rewrite lookup_insert_eq|done].
    simplify_eq. cbn in Ht. apply app_inv_head in Ht. simplify_eq. done.
Qed.

Lemma no_email_no_send_witness :
  fetch_fault sample.E sample.ana sample.fresh_world = None ∧
  patient_methods.has_email sample.E sample.ana sample.fresh_world
    = (Ok false, sample.fresh_world) ∧
  ∃ created w',
    model_extensions.send_welcome_email sample.E sample.ana sample.fresh_world
      = (Ok false, w') ∧
    trace w' = trace sample.fresh_world ++ [EvGetOrCreate (pk sample.ana) (Ok created)].
Proof.
  split_and!; [reflexivity..|].
  destruct (no_email_no_send sample.E sample.ana sample.fresh_world eq_refl eq_refl)
    as (created & _ & _ & _ & (w' & Hrun & Ht) & _).
  exists created, w'. split; [exact Hrun|exact Ht].
Defined.

(** ** The profile form *)

Lemma str_eq_true (x : option string) (s : string) :
  views.str_eq x s = true ↔ x = Some s.
Proof.
  destruct x as [a|]; cbn; [|done].
  destruct (String.eqb_spec a s); split; intros; congruence.
Qed.

Lemma notifications_true (x : option bool) :
  default false x = true ↔ x = Some true.
Proof. destruct x as [[|]|]; cbn; split; congruence. Qed.

(** The checks of [clean], in the order they are made. *)
Lemma clean_eq (cd : profile_form.cleaned) :
  profile_form.clean cd =
    if default false (profile_form.cd_email_notifications_enabled cd)
       && negb (truthy (profile_form.cd_email cd))
       && negb (truthy (profile_form.cd_secondary_email cd))
    then Raise (profile_form.ValidationError
                  "At least one email address is required when email notifications are enabled.")
    else if views.str_eq (profile_form.cd_preferred_email cd) "secondary"
            && negb (truthy (profile_form.cd_secondary_email cd))
    then Raise (profile_form.ValidationError
                  "Secondary email address is required when it's set as preferred.")
    else if views.str_eq (profile_form.cd_preferred_email cd) "primary"
            && negb (truthy (profile_form.cd_email cd))
    then Raise (profile_form.ValidationError
                  "Primary email address is required when it's set as preferred.")
    else Ok cd.
Proof.
  unfold profile_form.clean.
  destruct (default false _), (truthy (profile_form.cd_email cd)),
    (truthy (profile_form.cd_secondary_email cd)); reflexivity.
Qed.

Lemma clean_ok_iff (cd : profile_form.cleaned) :
  profile_form.clean cd = Ok cd ↔
  (profile_form.cd_email_notifications_enabled cd = Some true →
     truthy (profile_form.cd_email cd) = true
     ∨ truthy (profile_form.cd_secondary_email cd) = true) ∧
  (profile_form.cd_preferred_email cd = Some "secondary" →
     truthy (profile_form.cd_secondary_email cd) = true) ∧
  (profile_form.cd_preferred_email cd = Some "primary" →
     truthy (profile_form.cd_email cd) = true).
Proof.
  rewrite clean_eq.
  rewrite <-notifications_true, <-!str_eq_true.
  destruct (default false _), (truthy (profile_form.cd_email cd)),
    (truthy (profile_form.cd_secondary_email cd)),
    (views.str_eq (profile_form.cd_preferred_email cd) "secondary"),
    (views.str_eq (profile_form.cd_preferred_email cd) "primary"); cbn;
    intuition congruence.
Qed.

Lemma get_preferred_email_truthy (p : PatientEmail) :
  truthy (get_preferred_email p) = truthy (email p) || truthy (secondary_email p).
Proof.
  unfold get_preferred_email, py_or.
  destruct (String.eqb (preferred_email p) "secondary"),
    (truthy (secondary_email p)) eqn:Hs, (truthy (email p)) eqn:He; cbn;
    rewrite ?Hs, ?He; auto.
Qed.

(** X9. [PatientEmailForm.clean] hands back the data it was given, or
    raises. It accepts exactly the data in which: an address is given if
    notifications are enabled; the secondary address is given if it is the
    preferred one; the primary address is given if it is the preferred one.
    A preference that is absent (its field did not validate) asks for
    nothing. *)
Theorem profile_form_accepts (cd : profile_form.cleaned) :
  (∀ cd', profile_form.clean cd = Ok cd' → cd' = cd) ∧
  (profile_form.clean cd = Ok cd ↔
   (profile_form.cd_email_notifications_enabled cd = Some true →
      truthy (profile_form.cd_email cd) = true
      ∨ truthy (profile_form.cd_secondary_email cd) = true) ∧
   (profile_form.cd_preferred_email cd = Some "secondary" →
      truthy (profile_form.cd_secondary_email cd) = true) ∧
   (profile_form.cd_preferred_email cd = Some "primary" →
      truthy (profile_form.cd_email cd) = true)).
Proof.
  split; [|apply clean_ok_iff].
  rewrite clean_eq. intros cd'.
  repeat (match goal with |- context [if ?b then _ else _] => destruct b end);
    congruence.
Qed.

(** X10. Which error [clean] raises: a form with notifications enabled
    and no address at all is told that an address is required, whatever it
    prefers; otherwise a preferred secondary address that is missing is
    asked for; otherwise a preferred primary address that is missing. *)
Theorem profile_form_first_error (cd : profile_form.cleaned) :
  (profile_form.cd_email_notifications_enabled cd = Some true →
   truthy (profile_form.cd_email cd) = false →
   truthy (profile_form.cd_secondary_email cd) = false →
   profile_form.clean cd
   = Raise (profile_form.ValidationError
              "At least one email address is required when email notifications are enabled.")) ∧
  (profile_form.cd_email_notifications_enabled cd ≠ Some true
   ∨ truthy (profile_form.cd_email cd) = true →
   profile_form.cd_preferred_email cd = Some "secondary" →
   truthy (profile_form.cd_secondary_email cd) = false →
   profile_form.clean cd
   = Raise (profile_form.ValidationError
              "Secondary email address is required when it's set as preferred.")) ∧
  (profile_form.cd_email_notifications_enabled cd ≠ Some true
   ∨ truthy (profile_form.cd_secondary_email cd) = true →
   profile_form.cd_preferred_email cd = Some "primary" →
   truthy (profile_form.cd_email cd) = false →
   profile_form.clean cd
   = Raise (profile_form.ValidationError
              "Primary email address is required when it's set as preferred.")).
Proof.
  rewrite clean_eq. rewrite <-notifications_true.
  split_and!.
  - intros -> -> ->. done.
  - intros Hn ->%str_eq_true ->. cbn. rewrite andb_true_r.
    destruct Hn as [Hn| ->]; [|by rewrite andb_false_r].
    apply not_true_iff_false in Hn. by rewrite Hn.
  - intros Hn Hp%str_eq_true ->. cbn. rewrite Hp.
    assert (views.str_eq (profile_form.cd_preferred_email cd) "secondary" = false) as ->.
    { apply str_eq_true in Hp. rewrite Hp. done. }
    cbn. destruct Hn as [Hn| ->]; [|by rewrite andb_false_r].
    apply not_true_iff_false in Hn. by rewrite Hn.
Qed.

(** X11. A profile that carries data the form accepted sends to the
    address its preference names: [get_preferred_email()] returns the
    preferred address itself, which is not empty, and never falls back on
    the other one. If notifications are enabled in such a profile and it
    has not bounced, it passes the gate of [send_email]. *)
Theorem accepted_profile_has_its_preferred_address (cd : profile_form.cleaned)
    (p : PatientEmail) :
  profile_form.clean cd = Ok cd →
  profile_form.cd_email cd = email p →
  profile_form.cd_secondary_email cd = secondary_email p →
  profile_form.cd_preferred_email cd = Some (preferred_email p) →
  profile_form.cd_email_notifications_enabled cd = Some (email_notifications_enabled p) →
  (preferred_email p = "primary" →
     get_preferred_email p = email p ∧ truthy (email p) = true) ∧
  (preferred_email p = "secondary" →
     get_preferred_email p = secondary_email p ∧ truthy (secondary_email p) = true) ∧
  (email_notifications_enabled p = true → email_bounced p = false →
     passes_gate p = true).
Proof.
  intros Hok He Hs Hp Hn.
  apply clean_ok_iff in Hok as (H1 & H2 & H3).
  rewrite He, Hs, Hp, Hn in *.
  split_and!.
  - intros Hpref. rewrite Hpref in *. specialize (H3 eq_refl).
    unfold get_preferred_email, py_or. rewrite Hpref, H3. done.
  - intros Hpref. rewrite Hpref in *. specialize (H2 eq_refl).
    unfold get_preferred_email. rewrite Hpref, H2. done.
  - intros Hon Hb. unfold passes_gate. rewrite Hon, Hb. cbn.
    rewrite Hon in H1.
    rewrite get_preferred_email_truthy.
    destruct (H1 eq_refl) as [-> | ->]; [done|by rewrite orb_true_r].
Qed.

Lemma accepted_profile_has_its_preferred_address_witness :
  profile_form.clean (profile_form.mkCleaned (Some "a@x.com") None (Some true) (Some "primary"))
    = Ok (profile_form.mkCleaned (Some "a@x.com") None (Some true) (Some "primary")) ∧
  Some "a@x.com" = email sample.profile ∧
  None = secondary_email sample.profile ∧
  Some "primary" = Some (preferred_email sample.profile) ∧
  Some true = Some (email_notifications_enabled sample.profile) ∧
  (email_notifications_enabled sample.profile = true →
   email_bounced sample.profile = false → passes_gate sample.profile = true).
Proof.
  split_and!; [reflexivity..|].
  exact (proj2 (proj2 (accepted_profile_has_its_preferred_address
                         (profile_form.mkCleaned (Some "a@x.com") None (Some true)
                            (Some "primary"))
                         sample.profile eq_refl eq_refl eq_refl eq_refl eq_refl))).
Defined.

(** ** The quick action endpoint, further *)

Lemma get_object_or_404_eq (patient_id org : Z) (w : world) :
  views.get_object_or_404 patient_id org w =
    match patients w !! patient_id with
    | Some p =>
        if patient_organization p =? org then (Ok p, w)
        else (Raise (Exn "Http404" "No Patient matches the given query."), w)
    | None => (Raise (Exn "Http404" "No Patient matches the given query."), w)
    end.
Proof.
  unfold views.get_object_or_404. py_unfold. cbn.
  destruct (patients w !! patient_id) as [p|]; [|done].
  by destruct (patient_organization p =? org).
Qed.

(** X12. The guards of [ajax_patient_email_quick_actions], in their
    order. The permission is checked first: a caller without the permission
    to send gets the JSON object whose [success] is [False] and whose
    [error] is ["Permission denied"], whatever the patient id and the
    action, so an id that names no patient raises no [Http404] for that
    caller. For a caller holding the permission, an id that names no
    patient of the caller's organization raises [Http404], whatever the
    action. In both cases nothing changes and nothing is sent. *)
Theorem quick_action_guards (E : env) (r : views.request) (patient_id : Z) (w : world) :
  (views.has_perm r "patient_email_plugin.can_send_patient_emails" = false →
   views.ajax_patient_email_quick_actions E r patient_id w
   = (Ok (views.JsonResponse [("success", views.JBool false);
                              ("error", views.JStr "Permission denied")]), w)) ∧
  (views.has_perm r "patient_email_plugin.can_send_patient_emails" = true →
   (∀ patient, patients w !! patient_id = Some patient →
               patient_organization patient ≠ views.user_organization r) →
   views.ajax_patient_email_quick_actions E r patient_id w
   = (Raise (Exn "Http404" "No Patient matches the given query."), w)).
Proof.
  unfold views.ajax_patient_email_quick_actions. split; intros Hperm; rewrite Hperm.
  - reflexivity.
  - intros Hnone. cbn [negb]. rewrite bind_run, get_object_or_404_eq.
    destruct (patients w !! patient_id) as [patient|]; [|done].
    specialize (Hnone patient eq_refl). apply Z.eqb_neq in Hnone. by rewrite Hnone.
Qed.

(** The same request from a caller without the permission and from one
    holding it, for an id that names no patient. *)
Example scenario_quick_guards :
  (views.ajax_patient_email_quick_actions sample.E more_samples.guest 99
     (sample.world_of sample.profile)).1
  = Ok (views.JsonResponse [("success", views.JBool false);
                            ("error", views.JStr "Permission denied")]) ∧
  (views.ajax_patient_email_quick_actions sample.E more_samples.welcome 99
     (sample.world_of sample.profile)).1
  = Raise (Exn "Http404" "No Patient matches the given query.").
Proof. by vm_compute. Qed.

(** What a method of [Patient] that sends returns once the profile was
    fetched: a boolean, which is [True] only if the transport took a
    message. *)
Lemma wrapper_outcome E (patient : Patient) (w : world) (k : loc → M bool) :
  fetch_fault E patient w = None →
  (∀ l w1 row, objs w1 !! l = Some row →
     ∃ b w2 evs, k l w1 = (Ok b, w2) ∧ trace w2 = trace w1 ++ evs ∧
                 (b = true → ∃ ev, ev ∈ evs ∧ accepted ev)) →
  ∃ b w' evs,
    (email_profile ← model_extensions.get_email_profile E patient; k email_profile) w
      = (Ok b, w') ∧
    trace w' = trace w ++ evs ∧ (b = true → ∃ ev, ev ∈ evs ∧ accepted ev).
Proof.
  intros Hf Hk. rewrite bind_run.
  destruct (model_extensions.get_email_profile E patient w) as [[l|e] w1] eqn:Hrun.
  - pose proof Hrun as (row & Hl & _)%get_email_profile_allocated.
    destruct (Hk l w1 row Hl) as (b & w2 & evs & Hrun2 & Ht & Hacc).
    assert (∃ ev0, trace w1 = trace w ++ [ev0]) as [ev0 Ht1].
    { rewrite get_email_profile_eq in Hrun. cbn in Hrun. rewrite Hf in Hrun.
      destruct (db w !! pk patient); simplify_eq; cbn; eauto. }
    exists b, w2, (ev0 :: evs). split; [done|]. split.
    + by rewrite Ht, Ht1, <-app_assoc.
    + intros Hb. destruct (Hacc Hb) as (ev & Hin & Hev). exists ev. split; [by right|done].
  - rewrite get_email_profile_eq in Hrun. cbn in Hrun. rewrite Hf in Hrun.
    by destruct (db w !! pk patient).
Qed.

Lemma handler_answered_no_fault E self p e w :
  handler_answered E → handler_fault E self p e w = None.
Proof. intros [Hr Hp]. unfold handler_fault. by rewrite Hr, Hp. Qed.

(** With a handler that is answered, [send_email] returns. *)
Lemma send_email_accepts E self p w subject message html tpl ctx from :
  handler_answered E →
  objs w !! self = Some p →
  ∃ b w' evs,
    models.send_email E self subject message html tpl ctx from w = (Ok b, w') ∧
    trace w' = trace w ++ evs ∧ (b = true → ∃ ev, ev ∈ evs ∧ accepted ev).
Proof.
  intros Hh Hp.
  destruct (models.send_email E self subject message html tpl ctx from w) as [r w'] eqn:Hrun.
  assert (∃ b, r = Ok b) as [b ->].
  { destruct (send_email_absorbed E self p w subject message html tpl ctx from Hp)
      as [(b & evs & Hb & _)|(e & e' & _ & Hf)]; rewrite Hrun in *; cbn in *.
    - by exists b.
    - by rewrite handler_answered_no_fault in Hf. }
  apply (send_email_outcome _ _ p) in Hrun as (evs & Ht & _ & Hcases); [|done].
  exists b, w', evs. split_and!; [done..|]. intros ->.
  destruct Hcases as [(? & _)|(t & _ & _ & Hacc & _)]; done.
Qed.

Lemma send_email_accepts_after_alloc E self p w d subject tpl :
  handler_answered E →
  objs w !! self = Some p →
  ∃ b w' evs,
    (context ← alloc_dict d;
     models.send_email E self subject None None tpl (Some context) None) w = (Ok b, w') ∧
    trace w' = trace w ++ evs ∧ (b = true → ∃ ev, ev ∈ evs ∧ accepted ev).
Proof.
  intros Hh Hp. rewrite bind_run.
  unfold alloc_dict, get_world, modify, ret, mbind, M_bind, bind. cbn.
  by apply (send_email_accepts E self p (set_dicts _ w)).
Qed.

Lemma alloc_dict_run {A} (d : gmap string pyval) (k : loc → M A) (w : world) :
  (alloc_dict d ≫= k) w
  = k (fresh (dom (dicts w))) (set_dicts (insert (fresh (dom (dicts w))) d) w).
Proof. reflexivity. Qed.

(** The endpoint past its two guards. *)
Lemma quick_action_authorized E r patient_id patient w :
  views.has_perm r "patient_email_plugin.can_send_patient_emails" = true →
  patients w !! patient_id = Some patient →
  patient_organization patient = views.user_organization r →
  views.ajax_patient_email_quick_actions E r patient_id w =
    ('(success, message) ←
       (if views.str_eq (views.POST r !! "action") "send_welcome" then
          success ← model_extensions.send_welcome_email E patient;
          ret (success, if success : bool then "Welcome email sent"
                        else "Failed to send welcome email")
        else if views.str_eq (views.POST r !! "action") "send_appointment_reminder" then
          success ← model_extensions.send_appointment_reminder E patient
                      (of_opt_str (views.POST r !! "appointment_date"))
                      (of_opt_str (views.POST r !! "appointment_time"));
          ret (success, if success : bool then "Appointment reminder sent"
                        else "Failed to send appointment reminder")
        else if views.str_eq (views.POST r !! "action") "verify_email" then
          context ← alloc_dict ∅;
          success ← model_extensions.send_email E patient
                      "Please verify your email address" None None
                      (Some "patient_email_plugin/emails/verify_email.html")
                      (Some context) None;
          ret (success, if success : bool then "Verification email sent"
                        else "Failed to send verification email")
        else ret (false, "Unknown action"));
     ret (views.JsonResponse [("success", views.JBool success);
                              ("message", views.JStr message)])) w.
Proof.
  intros Hperm Hpat Horg.
  unfold views.ajax_patient_email_quick_actions, views.get_object_or_404.
  rewrite Hperm. cbn [negb]. rewrite bind_run.
  unfold get_world at 1. rewrite bind_run. cbn. rewrite Hpat.
  apply Z.eqb_eq in Horg. rewrite Horg. reflexivity.
Qed.

(** One branch of the endpoint. *)
Lemma quick_branch (m : M bool) (yes no : string) (w : world) b w' :
  m w = (Ok b, w') →
  ('(success, message) ← (success ← m; ret (success, if success : bool then yes else no));
   ret (views.JsonResponse [("success", views.JBool success);
                            ("message", views.JStr message)])) w
  = (Ok (views.JsonResponse [("success", views.JBool b);
                             ("message", views.JStr (if b then yes else no))]), w').
Proof. intros Hm. unfold mbind, M_bind, bind. by rewrite Hm. Qed.

(** X13. For a caller holding the permission to send, a patient of the
    caller's organization, a storage layer that answers the profile fetch
    and the reads of the profile's patient, and a [print] that returns,
    each of the three known actions ends in a JSON object with [success]
    and a [message]: the message tells success and failure of that action
    apart, the endpoint raises nothing, and [success] is [True] only if
    the transport took a message. *)
Theorem known_quick_action (E : env) (r : views.request) (patient_id : Z)
    (patient : Patient) (w : world) (action : string) :
  views.has_perm r "patient_email_plugin.can_send_patient_emails" = true →
  patients w !! patient_id = Some patient →
  patient_organization patient = views.user_organization r →
  (∀ w0, fetch_fault E patient w0 = None) →
  handler_answered E →
  views.POST r !! "action" = Some action →
  action = "send_welcome" ∨ action = "send_appointment_reminder" ∨ action = "verify_email" →
  ∃ success w' evs,
    views.ajax_patient_email_quick_actions E r patient_id w
    = (Ok (views.JsonResponse
             [("success", views.JBool success);
              ("message",
               views.JStr
                 (if String.eqb action "send_welcome" then
                    if success then "Welcome email sent"
                    else "Failed to send welcome email"
                  else if String.eqb action "send_appointment_reminder" then
                    if success then "Appointment reminder sent"
                    else "Failed to send appointment reminder"
                  else
                    if success then "Verification email sent"
                    else "Failed to send verification email"))]), w') ∧
    trace w' = trace w ++ evs ∧
    (success = true → ∃ ev, ev ∈ evs ∧ accepted ev).
Proof.
  intros Hperm Hpat Horg Hf Hh Hact Hknown.
  rewrite (quick_action_authorized _ _ _ patient) by done. rewrite Hact.
  destruct Hknown as [-> | [-> | ->]].
  - cbn [views.str_eq String.eqb Ascii.eqb Bool.eqb].
    destruct (wrapper_outcome E patient w
                (λ l, models.send_welcome_email E l) (Hf w))
      as (b & w' & evs & Hrun & Ht & Hacc).
    { intros l w1 row Hl. by apply (send_email_accepts_after_alloc E l row). }
    exists b, w', evs. split; [|done].
    by apply (quick_branch (model_extensions.send_welcome_email E patient)).
  - cbn [views.str_eq String.eqb Ascii.eqb Bool.eqb].
    destruct (wrapper_outcome E patient w
                (λ l, models.send_appointment_reminder E l
                        (of_opt_str (views.POST r !! "appointment_date"))
                        (of_opt_str (views.POST r !! "appointment_time"))) (Hf w))
      as (b & w' & evs & Hrun & Ht & Hacc).
    { intros l w1 row Hl. by apply (send_email_accepts_after_alloc E l row). }
    exists b, w', evs. split; [|done].
    by apply (quick_branch (model_extensions.send_appointment_reminder E patient _ _)).
  - cbn [views.str_eq String.eqb Ascii.eqb Bool.eqb].
    set (l0 := fresh (dom (dicts w))). set (w0 := set_dicts (insert l0 ∅) w).
    destruct (wrapper_outcome E patient w0
                (λ l, models.send_email E l "Please verify your email address" None None
                        (Some "patient_email_plugin/emails/verify_email.html")
                        (Some l0) None) (Hf w0))
      as (b & w' & evs & Hrun & Ht & Hacc).
    { intros l w1 row Hl. by apply (send_email_accepts E l row). }
    exists b, w', evs. split; [|done].
    pose proof (quick_branch
                  (model_extensions.send_email E patient "Please verify your email address"
                     None None (Some "patient_email_plugin/emails/verify_email.html")
                     (Some l0) None)
                  "Verification email sent" "Failed to send verification email"
                  w0 b w' Hrun) as Hq.
    rewrite <-Hq. reflexivity.
Qed.

Lemma known_quick_action_witness :
  views.has_perm more_samples.welcome "patient_email_plugin.can_send_patient_emails" = true ∧
  patients (sample.world_of sample.profile) !! 7 = Some sample.ana ∧
  patient_organization sample.ana = views.user_organization more_samples.welcome ∧
  (∀ w0, fetch_fault sample.E sample.ana w0 = None) ∧
  handler_answered sample.E ∧
  views.POST more_samples.welcome !! "action" = Some "send_welcome" ∧
  ∃ success w' evs,
    views.ajax_patient_email_quick_actions sample.E more_samples.welcome 7
      (sample.world_of sample.profile)
    = (Ok (views.JsonResponse
             [("success", views.JBool success);
              ("message", views.JStr (if success then "Welcome email sent"
                                      else "Failed to send welcome email"))]), w') ∧
    trace w' = trace (sample.world_of sample.profile) ++ evs ∧
    (success = true → ∃ ev, ev ∈ evs ∧ accepted ev).
Proof.
  assert (views.POST more_samples.welcome !! "action" = Some "send_welcome") as Hact
    by (vm_compute; reflexivity).
  assert (handler_answered sample.E) as Hh by (split; intros; reflexivity).
  split_and!; [reflexivity|reflexivity|reflexivity|intros w0; reflexivity|exact Hh|
               exact Hact|].
  exact (known_quick_action sample.E more_samples.welcome 7 sample.ana
           (sample.world_of sample.profile) "send_welcome"
           eq_refl eq_refl eq_refl (λ w0, eq_refl) Hh Hact (or_introl eq_refl)).
Defined.

(** The welcome action on the sample profile. *)
Example scenario_quick_welcome :
  (views.ajax_patient_email_quick_actions sample.E more_samples.welcome 7
     (sample.world_of sample.profile)).1
  = Ok (views.JsonResponse [("success", views.JBool true);
                            ("message", views.JStr "Welcome email sent")]).
Proof. by vm_compute. Qed.

(** ** The edit view's object *)

(** X14. [PatientEmailEditView.get_object]: for a patient of the caller's
    organization it does what [Patient.get_email_profile] does, so a
    profile it creates is bound to the patient's organization; for any
    other patient id it raises [Http404] and creates nothing. *)
Theorem edit_view_object (E : env) (r : views.request) (patient_id : Z) (w : world) :
  (∀ patient,
     patients w !! patient_id = Some patient →
     patient_organization patient = views.user_organization r →
     pages.get_object E r patient_id w
     = model_extensions.get_email_profile E patient w) ∧
  ((∀ patient, patients w !! patient_id = Some patient →
               patient_organization patient ≠ views.user_organization r) →
   pages.get_object E r patient_id w
   = (Raise (Exn "Http404" "No Patient matches the given query."), w)).
Proof.
  unfold pages.get_object, model_extensions.get_email_profile.
  rewrite bind_run, get_object_or_404_eq. split.
  - intros patient -> Horg. rewrite <-Horg, Z.eqb_refl. reflexivity.
  - intros Hnone. destruct (patients w !! patient_id) as [patient|]; [|done].
    specialize (Hnone patient eq_refl). apply Z.eqb_neq in Hnone. by rewrite Hnone.
Qed.

(** ** The send view *)

(** X15. The guards of [send_patient_email], in their order. The patient
    is looked up first: an id that names no patient of the caller's
    organization raises [Http404], with or without the permission to send.
    For a patient that was found, a caller without that permission is
    redirected to the patient's page with one error message, whatever the
    method and the data of the request. In both cases nothing changes and
    nothing is sent. *)
Theorem send_view_guards (E : env) (validate : gmap string string → option pages.send_data)
    (get_full_name : Patient → string) (r : pages.http_request) (patient_id : Z)
    (w : world) :
  ((∀ patient, patients w !! patient_id = Some patient →
               patient_organization patient ≠ views.user_organization (pages.base r)) →
   pages.send_patient_email E validate get_full_name r patient_id w
   = (Raise (Exn "Http404" "No Patient matches the given query."), w)) ∧
  (∀ patient,
     patients w !! patient_id = Some patient →
     patient_organization patient = views.user_organization (pages.base r) →
     views.has_perm (pages.base r) "patient_email_plugin.can_send_patient_emails" = false →
     pages.send_patient_email E validate get_full_name r patient_id w
     = (Ok (pages.Redirect "patients:detail" patient_id,
            [(pages.Error, "You don't have permission to send emails to patients.")]), w)).
Proof.
  unfold pages.send_patient_email. rewrite bind_run, get_object_or_404_eq. split.
  - intros Hnone. destruct (patients w !! patient_id) as [patient|]; [|done].
    specialize (Hnone patient eq_refl). apply Z.eqb_neq in Hnone. by rewrite Hnone.
  - intros patient -> Horg Hperm. rewrite <-Horg, Z.eqb_refl, Hperm. reflexivity.
Qed.

(** X16. For a caller holding the permission to send and a patient that was
    found, a request that is no POST, or a POST whose form does not
    validate, is answered with the send form (unbound, or bound to the
    data that was posted): no message is added, nothing is sent and nothing
    changes. *)
Theorem send_view_shows_the_form (E : env)
    (validate : gmap string string → option pages.send_data)
    (get_full_name : Patient → string) (r : pages.http_request) (patient_id : Z)
    (patient : Patient) (w : world) :
  patients w !! patient_id = Some patient →
  patient_organization patient = views.user_organization (pages.base r) →
  views.has_perm (pages.base r) "patient_email_plugin.can_send_patient_emails" = true →
  pages.method r ≠ "POST" ∨ validate (views.POST (pages.base r)) = None →
  pages.send_patient_email E validate get_full_name r patient_id w
  = (Ok (pages.Render "patient_email_plugin/send_email.html" patient
           (String.eqb (pages.method r) "POST"), []), w).
Proof.
  intros Hpat Horg Hperm Hform.
  unfold pages.send_patient_email. rewrite bind_run, get_object_or_404_eq, Hpat.
  rewrite <-Horg, Z.eqb_refl, Hperm. cbn [negb].
  destruct (String.eqb_spec (pages.method r) "POST") as [Hm|Hm]; [|done].
  destruct Hform as [?|Hv]; [done|]. by rewrite Hv.
Qed.

Lemma send_view_shows_the_form_witness :
  patients (sample.world_of sample.profile) !! 7 = Some sample.ana ∧
  patient_organization sample.ana
    = views.user_organization (pages.base (pages.mkHttp more_samples.welcome "GET")) ∧
  views.has_perm (pages.base (pages.mkHttp more_samples.welcome "GET"))
    "patient_email_plugin.can_send_patient_emails" = true ∧
  pages.send_patient_email sample.E more_samples.validate more_samples.full_name
    (pages.mkHttp more_samples.welcome "GET") 7 (sample.world_of sample.profile)
  = (Ok (pages.Render "patient_email_plugin/send_email.html" sample.ana
           (String.eqb (pages.method (pages.mkHttp more_samples.welcome "GET")) "POST"),
         []),
     sample.world_of sample.profile).
Proof.
  split_and!; [reflexivity..|].
  apply (send_view_shows_the_form sample.E more_samples.validate more_samples.full_name
           (pages.mkHttp more_samples.welcome "GET") 7 sample.ana
           (sample.world_of sample.profile) eq_refl eq_refl eq_refl).
  left. discriminate.
Defined.

(** X17. For a caller holding the permission to send, a patient that was
    found, a POST whose form validates, a storage layer that answers the
    profile fetch and the reads of the profile's patient, and a [print]
    that returns, [send_patient_email] raises nothing and redirects to the
    patient's page whether the mail went out or not, with exactly one
    message: the success message with the patient's name if
    [Patient.send_email] returned [True], which it does only if the
    transport took the mail, and the error message otherwise. *)
Theorem send_view_post (E : env) (validate : gmap string string → option pages.send_data)
    (get_full_name : Patient → string) (r : pages.http_request) (patient_id : Z)
    (patient : Patient) (cleaned_data : pages.send_data) (w : world) :
  patients w !! patient_id = Some patient →
  patient_organization patient = views.user_organization (pages.base r) →
  views.has_perm (pages.base r) "patient_email_plugin.can_send_patient_emails" = true →
  pages.method r = "POST" →
  validate (views.POST (pages.base r)) = Some cleaned_data →
  fetch_fault E patient w = None →
  handler_answered E →
  ∃ (success : bool) w' evs,
    pages.send_patient_email E validate get_full_name r patient_id w
    = (Ok (pages.Redirect "patients:detail" patient_id,
           [if success
            then (pages.Success, "Email sent successfully to " +:+ get_full_name patient)
            else (pages.Error,
                  "Failed to send email. Please check patient's email configuration.")]),
       w') ∧
    trace w' = trace w ++ evs ∧
    (success = true → ∃ ev, ev ∈ evs ∧ accepted ev).
Proof.
  intros Hpat Horg Hperm Hm Hv Hf Hh.
  unfold pages.send_patient_email. rewrite bind_run, get_object_or_404_eq, Hpat.
  rewrite <-Horg, Z.eqb_refl, Hperm, Hm, Hv. cbn [negb String.eqb Ascii.eqb Bool.eqb].
  destruct (wrapper_outcome E patient w
              (λ l, models.send_email E l (pages.sd_subject cleaned_data)
                      (Some (pages.sd_message cleaned_data))
                      (pages.sd_html_message cleaned_data) None None None) Hf)
    as (b & w' & evs & Hrun & Ht & Hacc).
  { intros l w1 row Hl. by apply (send_email_accepts E l row). }
  exists b, w', evs. split; [|done].
  rewrite bind_run. unfold model_extensions.send_email. rewrite Hrun. by destruct b.
Qed.

Lemma send_view_post_witness :
  patients (sample.world_of sample.profile) !! 7 = Some sample.ana ∧
  patient_organization sample.ana = views.user_organization (pages.base more_samples.post) ∧
  views.has_perm (pages.base more_samples.post)
    "patient_email_plugin.can_send_patient_emails" = true ∧
  pages.method more_samples.post = "POST" ∧
  more_samples.validate (views.POST (pages.base more_samples.post))
    = Some (pages.mkSendData "Hi" "Body" None) ∧
  fetch_fault sample.E sample.ana (sample.world_of sample.profile) = None ∧
  handler_answered sample.E ∧
  ∃ (success : bool) w' evs,
    pages.send_patient_email sample.E more_samples.validate more_samples.full_name
      more_samples.post 7 (sample.world_of sample.profile)
    = (Ok (pages.Redirect "patients:detail" 7,
           [if success
            then (pages.Success,
                  "Email sent successfully to " +:+ more_samples.full_name sample.ana)
            else (pages.Error,
                  "Failed to send email. Please check patient's email configuration.")]),
       w') ∧
    trace w' = trace (sample.world_of sample.profile) ++ evs ∧
    (success = true → ∃ ev, ev ∈ evs ∧ accepted ev).
Proof.
  assert (more_samples.validate (views.POST (pages.base more_samples.post))
          = Some (pages.mkSendData "Hi" "Body" None)) as Hv by (vm_compute; reflexivity).
  assert (handler_answered sample.E) as Hh by (split; intros; reflexivity).
  split_and!; [reflexivity|reflexivity|reflexivity|reflexivity|exact Hv|reflexivity|
               exact Hh|].
  exact (send_view_post sample.E more_samples.validate more_samples.full_name
           more_samples.post 7 sample.ana (pages.mkSendData "Hi" "Body" None)
           (sample.world_of sample.profile) eq_refl eq_refl eq_refl eq_refl Hv eq_refl Hh).
Defined.

(** The post of the samples goes out. *)
Example scenario_send_view :
  let out := pages.send_patient_email sample.E more_samples.validate more_samples.full_name
               more_samples.post 7 (sample.world_of sample.profile) in
  out.1 = Ok (pages.Redirect "patients:detail" 7,
              [(pages.Success, "Email sent successfully to Ana Diaz")]) ∧
  trace out.2 !! 1%nat
    = Some (EvSendMail (mkMail "Hi" "Body" None ["a@x.com"] None false) (Ok 1)).
Proof. by vm_compute. Qed.

(** ** The template hooks *)

Section hooks.

Context (E : env) (R : template_hooks.renderer).

(** Reading the profile inside a handler that catches everything. *)
Lemma guarded_read {A} (v : template_hooks.tval) (f : option PatientEmail → A) (w : world) :
  try_except (p ← template_hooks.attr_email_profile E v; ret (f (Some p)))
             (λ _, ret (f None)) w
  = (Ok (f (readable_profile_of E v w)), w).
Proof.
  unfold try_except. rewrite bind_run.
  destruct v; try done. cbn [template_hooks.attr_email_profile readable_profile_of].
  rewrite email_profile_eq. unfold readable_profile.
  destruct (fetch_fault E p w); [done|]. by destruct (db w !! pk p).
Qed.

Lemma detail_hook_eq context request w :
  template_hooks.tval_truthy (default template_hooks.TNone (context !! "patient")) = true →
  template_hooks.patient_detail_email_section E R context request w
  = (R "patient_email_plugin/partials/patient_detail_email_section.html"
       [("patient", default template_hooks.TNone (context !! "patient"));
        ("email_profile",
         template_hooks.of_profile
           (readable_profile_of E (default template_hooks.TNone (context !! "patient")) w));
        ("has_email_permission",
         template_hooks.TBool
           (views.has_perm request "patient_email_plugin.can_manage_patient_emails"));
        ("request", template_hooks.TRequest request)] w, w).
Proof.
  intros Hv. unfold template_hooks.patient_detail_email_section. rewrite Hv. cbn [negb].
  rewrite bind_run, (guarded_read _ id). reflexivity.
Qed.

Lemma sidebar_hook_eq context request w :
  template_hooks.tval_truthy (default template_hooks.TNone (context !! "patient")) = true →
  template_hooks.patient_detail_sidebar_email_widget E R context request w
  = (R "patient_email_plugin/partials/patient_detail_sidebar_email_widget.html"
       [("patient", default template_hooks.TNone (context !! "patient"));
        ("email_profile",
         template_hooks.of_profile
           (readable_profile_of E (default template_hooks.TNone (context !! "patient")) w));
        ("has_email",
         template_hooks.TBool
           (sidebar_flag
              (readable_profile_of E (default template_hooks.TNone (context !! "patient")) w)));
        ("request", template_hooks.TRequest request)] w, w).
Proof.
  intros Hv. unfold template_hooks.patient_detail_sidebar_email_widget.
  rewrite Hv. cbn [negb]. rewrite bind_run.
  rewrite (guarded_read _ (λ x, (x, sidebar_flag x))). reflexivity.
Qed.

End hooks.

Lemma edit_hook_fetch (E : env) (v : template_hooks.tval) (org : Z) (w : world) :
  try_except
    ('(email_profile, created) ← template_hooks.get_or_create_for E v org;
     p ← read_obj email_profile;
     ret (Some p))
    (λ _, ret None) w
  = match v with
    | template_hooks.TPatient p =>
        match fetch_fault E p w with
        | Some e => (Ok None, record_event E (EvGetOrCreate (pk p) (Raise e)) w)
        | None =>
            match db w !! pk p with
            | Some row =>
                (Ok (Some row),
                 set_objs (insert (fresh (dom (objs w))) row)
                   (record_event E (EvGetOrCreate (pk p) (Ok false)) w))
            | None =>
                (Ok (Some (new_profile p org)),
                 set_objs (insert (fresh (dom (objs w))) (new_profile p org))
                   (record_event E (EvGetOrCreate (pk p) (Ok true))
                      (set_db (insert (pk p) (new_profile p org)) w)))
            end
        end
    | _ => (Ok None, w)
    end.
Proof.
  unfold try_except. rewrite bind_run.
  destruct v; try done. cbn [template_hooks.get_or_create_for].
  unfold get_or_create. py_unfold. cbn.
  destruct (fetch_fault E p w); [done|].
  destruct (db w !! pk p); cbn; by rewrite lookup_insert_eq.
Qed.

Lemma hooks_absent (E : env) (R : template_hooks.renderer)
    (context : gmap string template_hooks.tval) (request : views.request) (w : world) :
  template_hooks.tval_truthy (default template_hooks.TNone (context !! "patient")) = false →
  template_hooks.patient_detail_email_section E R context request w = (Ok "", w) ∧
  template_hooks.patient_edit_email_section E R context request w = (Ok "", w) ∧
  template_hooks.patient_detail_sidebar_email_widget E R context request w = (Ok "", w).
Proof.
  intros Hv.
  unfold template_hooks.patient_detail_email_section,
    template_hooks.patient_edit_email_section,
    template_hooks.patient_detail_sidebar_email_widget.
  by rewrite Hv.
Qed.

(** X18. With no patient in the page context (no such key, [None], or any
    other value that is not true), each of the three hooks returns the
    empty string: the renderer is not called, whatever it would do, the
    storage layer is not asked and nothing changes. *)
Theorem hooks_without_patient (E : env) (R : template_hooks.renderer)
    (context : gmap string template_hooks.tval) (request : views.request) (w : world) :
  template_hooks.tval_truthy (default template_hooks.TNone (context !! "patient")) = false →
  template_hooks.patient_detail_email_section E R context request w = (Ok "", w) ∧
  template_hooks.patient_edit_email_section E R context request w = (Ok "", w) ∧
  template_hooks.patient_detail_sidebar_email_widget E R context request w = (Ok "", w).
Proof. apply hooks_absent. Qed.

Lemma hooks_without_patient_witness :
  template_hooks.tval_truthy
    (default template_hooks.TNone
       (({["patient" := template_hooks.TNone]} : gmap string template_hooks.tval)
          !! "patient")) = false ∧
  template_hooks.patient_edit_email_section sample.E (λ _ _ _, Raise (Exn "Error" "called"))
    {["patient" := template_hooks.TNone]} more_samples.visitor sample.fresh_world
  = (Ok "", sample.fresh_world).
Proof.
  split; [by vm_compute|].
  exact (proj1 (proj2 (hooks_without_patient sample.E (λ _ _ _, Raise (Exn "Error" "called"))
                         {["patient" := template_hooks.TNone]} more_samples.visitor
                         sample.fresh_world ltac:(by vm_compute)))).
Defined.

(** X19. The detail hook and the sidebar hook only read the profile. For
    a request whose permission check has returned, they change nothing, in
    particular they create no profile, and an exception of the profile
    read (a patient without a profile, a storage layer that fails on that
    read) makes them render with no profile instead of raising. The
    [has_email] flag the sidebar hook hands to its template is what
    [Patient.has_email()] answers. *)
Theorem reading_hooks (E : env) (R : template_hooks.renderer)
    (context : gmap string template_hooks.tval) (request : views.request)
    (p : Patient) (w : world) :
  context !! "patient" = Some (template_hooks.TPatient p) →
  template_hooks.patient_detail_email_section E R context request w
  = (R "patient_email_plugin/partials/patient_detail_email_section.html"
       [("patient", template_hooks.TPatient p);
        ("email_profile", template_hooks.of_profile (readable_profile E p w));
        ("has_email_permission",
         template_hooks.TBool
           (views.has_perm request "patient_email_plugin.can_manage_patient_emails"));
        ("request", template_hooks.TRequest request)] w, w) ∧
  ∃ has_email,
    patient_methods.has_email E p w = (Ok has_email, w) ∧
    template_hooks.patient_detail_sidebar_email_widget E R context request w
    = (R "patient_email_plugin/partials/patient_detail_sidebar_email_widget.html"
         [("patient", template_hooks.TPatient p);
          ("email_profile", template_hooks.of_profile (readable_profile E p w));
          ("has_email", template_hooks.TBool has_email);
          ("request", template_hooks.TRequest request)] w, w).
Proof.
  intros Hp. split.
  - rewrite detail_hook_eq by (by rewrite Hp). by rewrite Hp.
  - exists (sidebar_flag (readable_profile E p w)). split.
    + rewrite has_email_eq, email_profile_eq. unfold readable_profile.
      destruct (fetch_fault E p w); [done|]. by destruct (db w !! pk p).
    + rewrite sidebar_hook_eq by (by rewrite Hp). by rewrite Hp.
Qed.

Lemma reading_hooks_witness :
  ({["patient" := template_hooks.TPatient sample.ana]} : gmap string template_hooks.tval)
    !! "patient" = Some (template_hooks.TPatient sample.ana) ∧
  ∃ has_email,
    patient_methods.has_email sample.E_db_down sample.ana (sample.world_of sample.profile)
      = (Ok has_email, sample.world_of sample.profile) ∧
    template_hooks.patient_detail_sidebar_email_widget sample.E_db_down more_samples.R
      {["patient" := template_hooks.TPatient sample.ana]} more_samples.guest
      (sample.world_of sample.profile)
    = (more_samples.R "patient_email_plugin/partials/patient_detail_sidebar_email_widget.html"
         [("patient", template_hooks.TPatient sample.ana);
          ("email_profile",
           template_hooks.of_profile
             (readable_profile sample.E_db_down sample.ana (sample.world_of sample.profile)));
          ("has_email", template_hooks.TBool has_email);
          ("request", template_hooks.TRequest more_samples.guest)]
         (sample.world_of sample.profile),
       sample.world_of sample.profile).
Proof.
  assert (({["patient" := template_hooks.TPatient sample.ana]}
             : gmap string template_hooks.tval) !! "patient"
          = Some (template_hooks.TPatient sample.ana)) as Hp by (by vm_compute).
  split; [exact Hp|].
  exact (proj2 (reading_hooks sample.E_db_down more_samples.R
                  {["patient" := template_hooks.TPatient sample.ana]} more_samples.guest
                  sample.ana (sample.world_of sample.profile) Hp)).
Defined.

(** X20. The edit hook creates the profile of a patient that has none, and
    binds it to the organization of the user who views the page, which
    need not be the patient's: the row it adds carries the viewer's
    organization, the template gets that profile and a form bound to it,
    and a later [Patient.get_email_profile()] hands out this row as it
    is. *)
Theorem edit_hook_binds_to_the_viewer (E : env) (R : template_hooks.renderer)
    (context : gmap string template_hooks.tval) (request : views.request)
    (p : Patient) (w : world) :
  context !! "patient" = Some (template_hooks.TPatient p) →
  fetch_fault E p w = None →
  db w !! pk p = None →
  ∃ w',
    template_hooks.patient_edit_email_section E R context request w
    = (R "patient_email_plugin/partials/patient_edit_email_section.html"
         [("patient", template_hooks.TPatient p);
          ("email_profile",
           template_hooks.TProfile (new_profile p (views.user_organization request)));
          ("email_form",
           template_hooks.TForm (new_profile p (views.user_organization request)));
          ("has_email_permission",
           template_hooks.TBool
             (views.has_perm request "patient_email_plugin.can_manage_patient_emails"));
          ("request", template_hooks.TRequest request)] w', w') ∧
    db w' = <[pk p := new_profile p (views.user_organization request)]> (db w) ∧
    organization <$> db w' !! pk p = Some (views.user_organization request) ∧
    (fetch_fault E p w' = None →
     ∃ email_profile w2,
       model_extensions.get_email_profile E p w' = (Ok email_profile, w2) ∧
       organization <$> objs w2 !! email_profile = Some (views.user_organization request) ∧
       db w2 = db w').
Proof.
  intros Hp Hf Hrow.
  unfold template_hooks.patient_edit_email_section. rewrite Hp. cbn [default from_option id].
  cbn [template_hooks.tval_truthy negb]. rewrite bind_run, edit_hook_fetch, Hf, Hrow.
  eexists. split; [reflexivity|]. cbn. split; [done|]. rewrite lookup_insert_eq.
  split; [done|]. intros Hf'.
  rewrite get_email_profile_eq. cbn. rewrite Hf', lookup_insert_eq.
  do 2 eexists. split; [done|]. cbn. by rewrite lookup_insert_eq.
Qed.

Lemma edit_hook_binds_to_the_viewer_witness :
  ({["patient" := template_hooks.TPatient sample.ana]} : gmap string template_hooks.tval)
    !! "patient" = Some (template_hooks.TPatient sample.ana) ∧
  fetch_fault sample.E sample.ana sample.fresh_world = None ∧
  db sample.fresh_world !! pk sample.ana = None ∧
  ∃ w',
    (template_hooks.patient_edit_email_section sample.E more_samples.R
       {["patient" := template_hooks.TPatient sample.ana]} more_samples.visitor
       sample.fresh_world).2 = w' ∧
    organization <$> db w' !! pk sample.ana
      = Some (views.user_organization more_samples.visitor).
Proof.
  assert (({["patient" := template_hooks.TPatient sample.ana]}
             : gmap string template_hooks.tval) !! "patient"
          = Some (template_hooks.TPatient sample.ana)) as Hp by (by vm_compute).
  split_and!; [exact Hp|reflexivity|reflexivity|].
  destruct (edit_hook_binds_to_the_viewer sample.E more_samples.R
              {["patient" := template_hooks.TPatient sample.ana]} more_samples.visitor
              sample.ana sample.fresh_world Hp eq_refl eq_refl)
    as (w' & Hrun & _ & Horg & _).
  exists w'. split; [|exact Horg]. rewrite Hrun. reflexivity.
Defined.

(** A user of organization 4 views the edit page of a patient of
    organization 3 that has no profile: the profile is created for
    organization 4, where [Patient.get_email_profile] creates it for 3. *)
Example scenario_edit_hook :
  organization <$>
    db (template_hooks.patient_edit_email_section sample.E more_samples.R
          {["patient" := template_hooks.TPatient sample.ana]} more_samples.visitor
          sample.fresh_world).2 !! 7 = Some 4 ∧
  organization <$>
    db (model_extensions.get_email_profile sample.E sample.ana sample.fresh_world).2 !! 7
    = Some 3.
Proof. by vm_compute. Qed.

(** X21. The sidebar hook raises only what the renderer raised, and then
    it has changed nothing. A page context without a patient, a value
    under ["patient"] that is no patient, a patient without a profile and
    a storage layer that fails are all met with a rendered fragment or the
    empty string: everything the hook does before it renders is inside its
    [try], whose handler catches everything. *)
Theorem sidebar_hook_raises_only_what_the_renderer_raises (E : env)
    (R : template_hooks.renderer) (context : gmap string template_hooks.tval)
    (request : views.request) (w : world) (e : exn) (w' : world) :
  template_hooks.patient_detail_sidebar_email_widget E R context request w = (Raise e, w') →
  w' = w ∧
  ∃ hook_context,
    R "patient_email_plugin/partials/patient_detail_sidebar_email_widget.html"
      hook_context w = Raise e.
Proof.
  destruct (template_hooks.tval_truthy (default template_hooks.TNone (context !! "patient")))
    eqn:Hv.
  2:{ destruct (hooks_absent E R context request w Hv) as (_ & _ & ->). done. }
  intros Hrun. rewrite sidebar_hook_eq in Hrun by done. simplify_eq. eauto.
Qed.

Lemma sidebar_hook_raises_only_what_the_renderer_raises_witness :
  template_hooks.patient_detail_sidebar_email_widget sample.E more_samples.R_missing
    {["patient" := template_hooks.TPatient sample.ana]} more_samples.visitor
    sample.fresh_world
  = (Raise (Exn "TemplateDoesNotExist" "partial"), sample.fresh_world) ∧
  ∃ hook_context,
    more_samples.R_missing
      "patient_email_plugin/partials/patient_detail_sidebar_email_widget.html"
      hook_context sample.fresh_world
    = Raise (Exn "TemplateDoesNotExist" "partial").
Proof.
  assert (template_hooks.patient_detail_sidebar_email_widget sample.E
            more_samples.R_missing
            {["patient" := template_hooks.TPatient sample.ana]} more_samples.visitor
            sample.fresh_world
          = (Raise (Exn "TemplateDoesNotExist" "partial"), sample.fresh_world)) as Hrun
    by (by vm_compute).
  split; [exact Hrun|].
  exact (proj2 (sidebar_hook_raises_only_what_the_renderer_raises sample.E
                  more_samples.R_missing
                  {["patient" := template_hooks.TPatient sample.ana]} more_samples.visitor
                  sample.fresh_world (Exn "TemplateDoesNotExist" "partial")
                  sample.fresh_world Hrun)).
Defined.

(** ** The view of the detail section *)

(** X22. The view [patient_detail_email_section]: an id that names no
    patient of the caller's organization raises [Http404]. For a patient
    that was found the view renders the partial with the stored profile, or
    with [None] when the patient has none, and creates no profile. Its
    handler catches [DoesNotExist] only: any other exception of the read,
    which the hook of the same name absorbs, reaches the caller of the
    view. In every case the view changes nothing. *)
Theorem detail_view_behaviour (E : env) (R : template_hooks.renderer)
    (request : views.request) (patient_id : Z) (w : world) :
  ((∀ patient, patients w !! patient_id = Some patient →
               patient_organization patient ≠ views.user_organization request) →
   partial_views.patient_detail_email_section E R request patient_id w
   = (Raise (Exn "Http404" "No Patient matches the given query."), w)) ∧
  (∀ patient,
     patients w !! patient_id = Some patient →
     patient_organization patient = views.user_organization request →
     (fetch_fault E patient w = None →
      partial_views.patient_detail_email_section E R request patient_id w
      = (R "patient_email_plugin/partials/patient_detail_email_section.html"
           [("patient", template_hooks.TPatient patient);
            ("email_profile", template_hooks.of_profile (db w !! pk patient));
            ("has_email_permission",
             template_hooks.TBool
               (views.has_perm request
                  "patient_email_plugin.can_manage_patient_emails"))] w, w)) ∧
     (∀ e, fetch_fault E patient w = Some e →
           partial_views.is_DoesNotExist e = false →
           partial_views.patient_detail_email_section E R request patient_id w
           = (Raise e, w) ∧
           ∀ context,
             context !! "patient" = Some (template_hooks.TPatient patient) →
             ∃ hook_context,
               template_hooks.patient_detail_email_section E R context request w
               = (R "patient_email_plugin/partials/patient_detail_email_section.html"
                    hook_context w, w))).
Proof.
  unfold partial_views.patient_detail_email_section.
  rewrite bind_run, get_object_or_404_eq. split.
  - intros Hnone. destruct (patients w !! patient_id) as [patient|]; [|done].
    specialize (Hnone patient eq_refl). apply Z.eqb_neq in Hnone. by rewrite Hnone.
  - intros patient -> Horg. rewrite <-Horg, Z.eqb_refl. rewrite bind_run.
    unfold partial_views.try_except_DoesNotExist. rewrite bind_run, email_profile_eq.
    split.
    + intros ->. by destruct (db w !! pk patient).
    + intros e -> He. split; [cbn; by rewrite He|].
      intros context Hp. rewrite detail_hook_eq by (by rewrite Hp). eauto.
Qed.

(** The storage layer is down: the view raises, the hook renders. *)
Example scenario_detail_view :
  (partial_views.patient_detail_email_section sample.E_db_down more_samples.R
     sample.staff 7 sample.fresh_world).1
  = Raise (Exn "OperationalError" "server closed the connection") ∧
  (template_hooks.patient_detail_email_section sample.E_db_down more_samples.R
     {["patient" := template_hooks.TPatient sample.ana]} sample.staff
     sample.fresh_world).1
  = Ok "patient_email_plugin/partials/patient_detail_email_section.html".
Proof. by vm_compute. Qed.
